(** * IoT simulator server: identity pool, connection registry, envelopes

    A shallow embedding of [server/utils/message_envelope.py] and of the
    stateful parts of [server/iot_simulator_server.py], followed by the
    properties of the design document that can be checked on it. *)

From Stdlib Require Import String Ascii List ZArith Lia Bool Arith.
From Stdlib Require Import DecimalString DecimalNat.
From Stdlib Require OrdersEx Finite.
From Stdlib Require Import RelationClasses.
Import ListNotations.
Local Open Scope list_scope.
Local Open Scope string_scope.

(** ** Python values

    The JSON-shaped values that travel in envelopes and request bodies.
    A [dict] keeps its items in insertion order, as Python's does. *)

Definition dict (V : Type) : Type := list (string * V).

#[local] Unset Elimination Schemes.
Inductive pyval : Type :=
| PNone
| PBool (b : bool)
| PInt (z : Z)
| PStr (s : string)
| PList (l : list pyval)
| PDict (d : list (string * pyval)).
#[local] Set Elimination Schemes.

(** Truth value of an object, as [or] and [if] test it. *)
Definition truthy (v : pyval) : bool :=
  match v with
  | PNone => false
  | PBool b => b
  | PInt z => negb (z =? 0)%Z
  | PStr s => negb (s =? EmptyString)
  | PList l => match l with [] => false | _ => true end
  | PDict d => match d with [] => false | _ => true end
  end.

(** [a or b] *)
Definition py_or (a b : pyval) : pyval := if truthy a then a else b.

Module Dict.
Section Ops.
Context {V : Type}.

(** [d.get(k)]: [None] of the option stands for a missing key. *)
Fixpoint lookup (k : string) (d : dict V) : option V :=
  match d with
  | [] => None
  | (k', v) :: d' => if k =? k' then Some v else lookup k d'
  end.

(** [k in d] *)
Definition contains (k : string) (d : dict V) : bool :=
  match lookup k d with Some _ => true | None => false end.

(** [d.get(k, default)] *)
Definition get (k : string) (default : V) (d : dict V) : V :=
  match lookup k d with Some v => v | None => default end.

(** [d[k] = v]: an existing key keeps its place, a new one goes last. *)
Fixpoint set (k : string) (v : V) (d : dict V) : dict V :=
  match d with
  | [] => [(k, v)]
  | (k', v') :: d' => if k =? k' then (k, v) :: d' else (k', v') :: set k v d'
  end.

(** [d.pop(k, None)] with the popped value dropped. *)
Fixpoint pop (k : string) (d : dict V) : dict V :=
  match d with
  | [] => []
  | (k', v') :: d' => if k =? k' then d' else (k', v') :: pop k d'
  end.

Definition keys (d : dict V) : list string := map fst d.
End Ops.
End Dict.

(** [d.get(k)] on a dict of Python values: a missing key reads as [None]. *)
Definition get_none (k : string) (d : dict pyval) : pyval := Dict.get k PNone d.

(** ** Exceptions and results *)

Inductive exn : Type :=
| HTTPException (status_code : Z) (detail : string)
| WebSocketDisconnect
| TypeError (msg : string)
| AttributeError (msg : string)
| IndexError (msg : string)
| RuntimeError (msg : string).

Definition str_of_exn (e : exn) : string :=
  match e with
  | HTTPException _ d => d
  | WebSocketDisconnect => EmptyString
  | TypeError m | AttributeError m | IndexError m | RuntimeError m => m
  end.

Inductive result (A : Type) : Type :=
| Ok (a : A)
| Raise (e : exn).
Arguments Ok {A} a.
Arguments Raise {A} e.

Definition bind {A B} (r : result A) (k : A -> result B) : result B :=
  match r with Ok a => k a | Raise e => Raise e end.

Notation "x <- r ;; k" := (bind r (fun x => k))
  (at level 61, r at next level, right associativity).

(** ** utils/message_envelope.py *)

Module MessageEnvelope.

(** The attributes [__init__] stores; Python fixes no type for them. *)
Record t : Type := Build {
  version : pyval;
  type : pyval;
  id : pyval;
  correlationId : pyval;
  ts : pyval;
  action : pyval;
  status : pyval;
  payload : pyval;
  meta : pyval
}.

(** What [str(uuid.uuid4())] and [iso_now()] give when a call asks. *)
Record clock : Type := Clock {
  uuid4 : string;
  iso_now : string
}.

Definition parameters : list string :=
  ["action"; "type"; "payload"; "status"; "correlationId"; "meta";
   "version"; "id"; "ts"].

Definition is_parameter (k : string) : bool :=
  existsb (String.eqb k) parameters.

(** First keyword of a call that [__init__] does not declare. *)
Fixpoint unexpected_keyword (kw : dict pyval) : option string :=
  match kw with
  | [] => None
  | (k, _) :: kw' => if is_parameter k then unexpected_keyword kw' else Some k
  end.

(** A call [MessageEnvelope(k1=v1, ...)]: the keywords are bound to the
    signature, then the body of [__init__] runs. *)
Definition init (c : clock) (kw : dict pyval) : result t :=
  match unexpected_keyword kw with
  | Some k =>
      Raise (TypeError
        ("MessageEnvelope.__init__() got an unexpected keyword argument '"
           ++ k ++ "'"))
  | None =>
      match Dict.lookup "action" kw with
      | None =>
          Raise (TypeError
            "MessageEnvelope.__init__() missing 1 required positional argument: 'action'")
      | Some action =>
          let type := Dict.get "type" (PStr "command") kw in
          let payload := get_none "payload" kw in
          let status := get_none "status" kw in
          let correlationId := get_none "correlationId" kw in
          let meta := get_none "meta" kw in
          let version := Dict.get "version" (PInt 1) kw in
          let id := get_none "id" kw in
          let ts := get_none "ts" kw in
          let self_id := py_or id (PStr (uuid4 c)) in
          Ok {| version := version;
                type := type;
                id := self_id;
                correlationId := py_or correlationId self_id;
                ts := py_or ts (PStr (iso_now c));
                action := action;
                status := status;
                payload := py_or payload (PDict []);
                meta := py_or meta (PDict []) |}
      end
  end.

Definition to_dict (self : t) : dict pyval :=
  let d := [("version", version self);
            ("type", type self);
            ("id", id self);
            ("correlationId", correlationId self);
            ("ts", ts self);
            ("action", action self);
            ("payload", payload self);
            ("meta", meta self)] in
  match status self with
  | PNone => d
  | s => Dict.set "status" s d
  end.

Definition from_dict (c : clock) (data : dict pyval) : result t :=
  init c [("action", Dict.get "action" (PStr EmptyString) data);
          ("type", Dict.get "type" (PStr "command") data);
          ("payload", get_none "payload" data);
          ("status", get_none "status" data);
          ("correlationId", get_none "correlationId" data);
          ("meta", get_none "meta" data);
          ("version", Dict.get "version" (PInt 1) data);
          ("id", get_none "id" data);
          ("ts", get_none "ts" data)].

End MessageEnvelope.

(** ** Table [deviceids]

    The storage layer ([utils/dbconnection.py]) is outside this file; a
    statement is modelled by what its SQL text selects or updates.  A bound
    value is stored as it is and [None] is SQL [NULL]. *)

Record DeviceId : Type := Row {
  device_id : string;
  device_uuid : pyval
}.

Definition table : Type := list DeviceId.

(** [device_uuid IS NULL] *)
Definition is_null (v : pyval) : bool :=
  match v with PNone => true | _ => false end.

Definition unassigned (r : DeviceId) : bool := is_null (device_uuid r).

(** Lexicographic order of two keys, by character code. *)
Definition str_le (a b : string) : bool :=
  match OrdersEx.String_as_OT.compare a b with Gt => false | _ => true end.

(** [ORDER BY device_id ASC] *)
Fixpoint insert_asc (k : string) (l : list string) : list string :=
  match l with
  | [] => [k]
  | x :: l' => if str_le k x then k :: l else x :: insert_asc k l'
  end.

Fixpoint order_by_asc (l : list string) : list string :=
  match l with
  | [] => []
  | k :: l' => insert_asc k (order_by_asc l')
  end.

(** [SELECT device_id FROM deviceids WHERE device_uuid IS NULL
     ORDER BY device_id ASC LIMIT 1], then [result.first()]. *)
Definition select_first_unassigned (db : table) : option string :=
  hd_error (firstn 1 (order_by_asc (map device_id (filter unassigned db)))).

(** [UPDATE deviceids SET device_uuid = :message_id
     WHERE device_id = :device_id] *)
Definition update_device_uuid (message_id : pyval) (k : string) (db : table)
  : table :=
  map (fun r => if device_id r =? k then Row (device_id r) message_id else r) db.

(** [DELETE FROM device_ids WHERE device_id = :device_id], with its
    [rowcount]. *)
Definition delete_where_device_id (k : string) (db : table) : table * nat :=
  (filter (fun r => negb (device_id r =? k)) db,
   List.length (filter (fun r => device_id r =? k) db)).

(** What the storage layer does wrong during one call: the statement of a
    given rank raises, or the commit does. *)
Record faults : Type := Faults {
  execute_fault : nat -> option exn;
  commit_fault : option exn
}.

Definition no_faults : faults := Faults (fun _ => None) None.

Definition check (f : option exn) : result unit :=
  match f with Some e => Raise e | None => Ok tt end.

(** [assign_device_id(message_id, db)]: the answer and the table as
    committed when the call ends. *)
Definition assign_device_id (f : faults) (message_id : pyval) (db : table)
  : result string * table :=
  match execute_fault f 0 with
  | Some e => (Raise e, db)
  | None =>
      match select_first_unassigned db with
      | None =>
          (Raise (HTTPException 404 "No available device IDs to assign"), db)
      | Some k =>
          match execute_fault f 1 with
          | Some e => (Raise e, db)
          | None =>
              match commit_fault f with
              | Some e => (Raise e, db)
              | None => (Ok k, update_device_uuid message_id k db)
              end
          end
      end
  end.

(** *** Claims whose statements interleave

    Each [await db.execute] of [assign_device_id] is a point where another
    task may run.  A task is where one call stands between its statements;
    nothing in the source makes the SELECT and the UPDATE one statement. *)

Inductive claim_task : Type :=
| Start (message_id : pyval)
| Selected (message_id : pyval) (row : option string)
| Finished (r : result string).

Definition claim_step (t : claim_task) (db : table) : claim_task * table :=
  match t with
  | Start m => (Selected m (select_first_unassigned db), db)
  | Selected m None =>
      (Finished (Raise (HTTPException 404 "No available device IDs to assign")),
       db)
  | Selected m (Some k) => (Finished (Ok k), update_device_uuid m k db)
  | Finished r => (t, db)
  end.

(** The task of rank [i] runs up to its next suspension point. *)
Fixpoint step_nth (i : nat) (ts : list claim_task) (db : table)
  : list claim_task * table :=
  match ts with
  | [] => ([], db)
  | t :: ts' =>
      match i with
      | O => let '(t', db') := claim_step t db in (t' :: ts', db')
      | S i' => let '(ts'', db') := step_nth i' ts' db in (t :: ts'', db')
      end
  end.

Fixpoint run_schedule (sched : list nat) (ts : list claim_task) (db : table)
  : list claim_task * table :=
  match sched with
  | [] => (ts, db)
  | i :: sched' => let '(ts', db') := step_nth i ts db in run_schedule sched' ts' db'
  end.

(** The answers of the calls that have ended. *)
Fixpoint task_results (ts : list claim_task) : list (result string) :=
  match ts with
  | [] => []
  | Finished r :: ts' => r :: task_results ts'
  | _ :: ts' => task_results ts'
  end.

Definition all_finished (ts : list claim_task) : bool :=
  forallb (fun t => match t with Finished _ => true | _ => false end) ts.

(** Calls made one after another, each ended before the next starts. *)
Fixpoint claim_all (tokens : list string) (db : table)
  : list (result string) * table :=
  match tokens with
  | [] => ([], db)
  | tok :: tokens' =>
      let '(r, db') := assign_device_id no_faults (PStr tok) db in
      let '(rs, db'') := claim_all tokens' db' in
      (r :: rs, db'')
  end.

(** The keys that a list of answers carries. *)
Fixpoint returned_keys (rs : list (result string)) : list string :=
  match rs with
  | [] => []
  | Ok k :: rs' => k :: returned_keys rs'
  | Raise _ :: rs' => returned_keys rs'
  end.

Definition all_ok (rs : list (result string)) : bool :=
  forallb (fun r => match r with Ok _ => true | Raise _ => false end) rs.

(** ** Strings as the server uses them *)

(** [str.lower()] on the ASCII range. *)
Definition lower_ascii (c : ascii) : ascii :=
  let n := nat_of_ascii c in
  if (65 <=? n)%nat && (n <=? 90)%nat then ascii_of_nat (n + 32) else c.

Fixpoint lower (s : string) : string :=
  match s with
  | EmptyString => EmptyString
  | String c s' => String (lower_ascii c) (lower s')
  end.

(** [s.split(sep)] for a separator of one character. *)
Fixpoint split (sep : ascii) (s : string) : list string :=
  match s with
  | EmptyString => [EmptyString]
  | String c s' =>
      if Ascii.eqb c sep then EmptyString :: split sep s'
      else match split sep s' with
           | [] => [String c EmptyString]
           | w :: ws => String c w :: ws
           end
  end.

(** [s.split(sep, 1)] *)
Fixpoint split1 (sep : ascii) (s : string) : list string :=
  match s with
  | EmptyString => [EmptyString]
  | String c s' =>
      if Ascii.eqb c sep then [EmptyString; s']
      else match split1 sep s' with
           | [] => [String c EmptyString]
           | w :: ws => String c w :: ws
           end
  end.

(** [l[i]] *)
Definition index (l : list string) (i : nat) : result string :=
  match nth_error l i with
  | Some x => Ok x
  | None => Raise (IndexError "list index out of range")
  end.

(** [f"{n:04d}"] for a natural number. *)
Definition fmt_04d (n : nat) : string :=
  let digits := NilZero.string_of_uint (Nat.to_uint n) in
  string_of_list_ascii (repeat "0"%char (4 - String.length digits)) ++ digits.

(** [str(v)] inside an f-string, for the values an environment variable
    can have. *)
Definition str_of_getenv (v : option string) : string :=
  match v with Some s => s | None => "None" end.

(** ** Server state *)

(** A channel handle; two handles are the same socket when equal. *)
Definition WebSocket : Type := nat.

Inductive wire_event : Type :=
| Accepted (ws : WebSocket)
| Frame (ws : WebSocket) (message : pyval)
| Closed (ws : WebSocket) (code : Z).

(** The process environment ([os.getenv]). *)
Record environ : Type := Environ {
  API_BEARER_TOKEN : option string;
  IOT_CONNECTION_STRING : option string;
  IOT_PRIMARY_KEY_DEVICE : option string
}.

Record server : Type := Server {
  active_connections : dict WebSocket;  (* manager.active_connections *)
  deviceids : table;                    (* the committed table *)
  wire : list wire_event;               (* what was put on the channels, oldest first *)
  hub_deletions : list string;          (* calls of delete_device_credential, oldest first *)
  entropy : nat                         (* how many random tokens were drawn *)
}.

Definition with_connections (c : dict WebSocket) (s : server) : server :=
  Server c (deviceids s) (wire s) (hub_deletions s) (entropy s).

Definition with_deviceids (db : table) (s : server) : server :=
  Server (active_connections s) db (wire s) (hub_deletions s) (entropy s).

Definition emit (e : wire_event) (s : server) : server :=
  Server (active_connections s) (deviceids s) ((wire s ++ [e])%list)
         (hub_deletions s) (entropy s).

Definition note_hub_deletion (k : string) (s : server) : server :=
  Server (active_connections s) (deviceids s) (wire s)
         ((hub_deletions s ++ [k])%list) (entropy s).

Definition draw (s : server) : server :=
  Server (active_connections s) (deviceids s) (wire s)
         (hub_deletions s) (S (entropy s)).

(** Code that reads and writes the server state and may raise. *)
Definition M (A : Type) : Type := server -> result A * server.

Definition ret {A} (a : A) : M A := fun s => (Ok a, s).

Definition raise {A} (e : exn) : M A := fun s => (Raise e, s).

Definition bindM {A B} (m : M A) (k : A -> M B) : M B :=
  fun s => match m s with
           | (Ok a, s') => k a s'
           | (Raise e, s') => (Raise e, s')
           end.

(** [try: m  except Exception as e: h(e)]; every exception of this model
    derives from [Exception]. *)
Definition try_except {A} (m : M A) (h : exn -> M A) : M A :=
  fun s => match m s with
           | (Ok a, s') => (Ok a, s')
           | (Raise e, s') => h e s'
           end.

Definition lift {A} (r : result A) : M A := fun s => (r, s).

Declare Scope server_scope.
Delimit Scope server_scope with server.
Notation "x <-- m ;;; k" := (bindM m (fun x => k))
  (at level 61, m at next level, right associativity) : server_scope.
Notation "m ;;; k" := (bindM m (fun _ => k))
  (at level 61, right associativity) : server_scope.
Local Open Scope server_scope.

(** [await ws.send_json(message)]; [fault] is what the channel does to
    this send. *)
Definition send_json (fault : option exn) (ws : WebSocket) (message : pyval)
  : M unit :=
  fun s => match fault with
           | Some e => (Raise e, s)
           | None => (Ok tt, emit (Frame ws message) s)
           end.

Module ConnectionManager.

Definition connect (uuid : string) (websocket : WebSocket) : M unit :=
  fun s => (Ok tt,
            with_connections (Dict.set uuid websocket (active_connections s))
                             (emit (Accepted websocket) s)).

Definition disconnect (uuid : string) : M unit :=
  fun s => (Ok tt, with_connections (Dict.pop uuid (active_connections s)) s).

Definition send_command (channel : WebSocket -> option exn)
    (uuid : string) (command : pyval) : M unit :=
  fun s => match Dict.lookup uuid (active_connections s) with
           | Some ws =>
               try_except (send_json (channel ws) ws command)
                          (fun _ => disconnect uuid) s
           | None => (Ok tt, s)
           end.

(** The loop of [broadcast] over [list(self.active_connections.items())]. *)
Fixpoint broadcast_items (channel : WebSocket -> option exn)
    (command : pyval) (items : list (string * WebSocket)) : M unit :=
  match items with
  | [] => ret tt
  | (uuid, ws) :: items' =>
      try_except (send_json (channel ws) ws command)
                 (fun _ => disconnect uuid) ;;;
      broadcast_items channel command items'
  end.

Definition broadcast (channel : WebSocket -> option exn) (command : pyval)
  : M unit :=
  fun s => broadcast_items channel command (active_connections s) s.

End ConnectionManager.

(** ** The endpoints of [iot_simulator_server.py] *)

(** One pass of the receive loop as the outside world shapes it: what
    [receive_json] gives, what the storage layer does during the pass and
    what the channel does to the frame sent in answer. *)
Record turn : Type := Turn {
  incoming : result pyval;
  storage : faults;
  channel : option exn
}.

(** How a pass of the loop body ends: at its last line, at [continue] or
    at [break]. *)
Inductive flow : Type := Fallthrough | Continue | Break.

(** How a connection handler stands after a script of turns. *)
Inductive outcome : Type :=
| Rejected                (* closed with 1008 before [connect] *)
| Listening               (* suspended in [receive_json] *)
| Disconnected            (* the [except WebSocketDisconnect] clause ran *)
| Returned                (* left the loop by [break] and returned *)
| Propagated (e : exn).   (* an exception left the handler *)

Definition terminated (o : outcome) : bool :=
  match o with Listening => false | _ => true end.

Record handshake : Type := Handshake {
  authorization : option string;   (* websocket.headers.get("authorization") *)
  query_token : option string      (* websocket.query_params.get("token") *)
}.

Record response : Type := Response {
  status : Z;
  content : pyval
}.

Definition option_string_eqb (a b : option string) : bool :=
  match a, b with
  | Some x, Some y => x =? y
  | None, None => true
  | _, _ => false
  end.

Section Endpoints.

Variable env : environ.
(** [generate_uuid()] at the n-th draw, and the clock of [message_envelope]. *)
Variable random_token : nat -> string.
Variable clock : nat -> MessageEnvelope.clock.
(** What [utils.device.delete_device_credential] raises for a key, if it
    does; the device platform is outside this file. *)
Variable hub : string -> option exn.

Definition generate_uuid : M string :=
  fun s => (Ok (random_token (entropy s)), draw s).

Definition generate_iothub_connection_string (device_id : string)
  : result string :=
  match IOT_CONNECTION_STRING env with
  | None => Raise (AttributeError "'NoneType' object has no attribute 'split'")
  | Some cs =>
      first <- index (split ";" cs) 0 ;;
      host_name <- index (split "=" first) 1 ;;
      Ok ("HostName=" ++ host_name ++ ";DeviceId=" ++ device_id
            ++ ";SharedAccessKey=" ++ str_of_getenv (IOT_PRIMARY_KEY_DEVICE env))
  end.

Definition new_envelope (kw : dict pyval) : M MessageEnvelope.t :=
  fun s => (MessageEnvelope.init (clock (entropy s)) kw, s).

Definition send_envelope (fault : option exn) (websocket : WebSocket)
    (envelope : MessageEnvelope.t) : M unit :=
  send_json fault websocket (PDict (MessageEnvelope.to_dict envelope)).

Definition claim (f : faults) (message_id : pyval) : M string :=
  fun s => let '(r, db) := assign_device_id f message_id (deviceids s) in
           (r, with_deviceids db s).

(** ["type" in data and data["type"] == name] *)
Definition type_is (name : string) (data : dict pyval) : bool :=
  Dict.contains "type" data &&
  match get_none "type" data with PStr s => s =? name | _ => false end.

(** The branch [type == "request"] of the loop body. *)
Definition on_request (websocket : WebSocket) (data : dict pyval) (t : turn)
  : M flow :=
  fun s =>
    match claim (storage t) (Dict.get "id" (PStr EmptyString) data) s with
    | (Ok assigned_device_id, s1) =>
        (id <-- generate_uuid ;;;
         cs <-- lift (generate_iothub_connection_string assigned_device_id) ;;;
         envelope <-- new_envelope
           [("version", PInt 1);
            ("type", PStr "response");
            ("id", PStr id);
            ("correlationId", Dict.get "id" (PStr EmptyString) data);
            ("action", PStr "device.config.update");
            ("payload", PDict
               [("device_id", PStr assigned_device_id);
                ("IOTHUB_DEVICE_CONNECTION_STRING", PStr cs);
                ("initialRetryTimeout", PInt 30);
                ("maxRetry", PInt 10);
                ("messageIntervalSeconds", PInt 5)]);
            ("status", PStr "success")] ;;;
         send_envelope (channel t) websocket envelope ;;;
         ret Fallthrough) s1
    | (Raise (HTTPException status_code detail), s1) =>
        (id <-- generate_uuid ;;;
         envelope <-- new_envelope
           [("action", Dict.get "action" (PStr "unknown") data);
            ("type", PStr "error");
            ("id", PStr id);
            ("correlation_id", Dict.get "id" (PStr EmptyString) data);
            ("payload", PDict []);
            ("status", PStr "failure");
            ("meta", PDict [("http_detail", PStr detail);
                            ("http_status", PInt status_code)])] ;;;
         try_except
           (send_envelope (channel t) websocket envelope ;;; ret Continue)
           (fun _ => ret Break)) s1
    | (Raise e, s1) =>
        (id <-- generate_uuid ;;;
         envelope <-- new_envelope
           [("action", Dict.get "action" (PStr "unknown") data);
            ("type", PStr "error");
            ("id", PStr id);
            ("correlation_id", Dict.get "id" (PStr EmptyString) data);
            ("payload", PDict []);
            ("status", PStr "failure");
            ("meta", PDict [("error", PStr (str_of_exn e))])] ;;;
         try_except
           (send_envelope (channel t) websocket envelope ;;; ret Break)
           (fun _ => ret Break)) s1
    end.

(** The branch [type == "report"]. *)
Definition on_report (websocket : WebSocket) (data : dict pyval) (t : turn)
  : M flow :=
  id <-- generate_uuid ;;;
  envelope <-- new_envelope
    [("version", PInt 1);
     ("type", PStr "response");
     ("action", PStr "none");
     ("id", PStr id);
     ("correlationId", Dict.get "id" (PStr EmptyString) data);
     ("status", PStr "received")] ;;;
  send_envelope (channel t) websocket envelope ;;;
  ret Fallthrough.

(** The body of [while True], from what [receive_json] returned. *)
Definition on_message (websocket : WebSocket) (t : turn) (received : pyval)
  : M flow :=
  match received with
  | PDict data =>
      f <-- (if type_is "request" data then on_request websocket data t
             else ret Fallthrough) ;;;
      match f with
      | Fallthrough =>
          if type_is "report" data then on_report websocket data t
          else ret Fallthrough
      | _ => ret f
      end
  | _ => raise (AttributeError "object has no attribute 'get'")
  end.

(** [try: while True: ...  except WebSocketDisconnect: manager.disconnect(uuid)] *)
Fixpoint session_loop (websocket : WebSocket) (uuid : string)
    (script : list turn) (s : server) : outcome * server :=
  match script with
  | [] => (Listening, s)
  | t :: script' =>
      match (received <-- lift (incoming t) ;;;
             on_message websocket t received) s with
      | (Ok Break, s') => (Returned, s')
      | (Ok _, s') => session_loop websocket uuid script' s'
      | (Raise WebSocketDisconnect, s') =>
          (Disconnected, snd (ConnectionManager.disconnect uuid s'))
      | (Raise e, s') => (Propagated e, s')
      end
  end.

(** The token a connecting client shows: header first, query otherwise. *)
Definition presented_token (h : handshake) : result (option string) :=
  match authorization h with
  | Some auth =>
      if negb (auth =? EmptyString) && String.prefix "bearer " (lower auth)
      then (tok <- index (split1 " " auth) 1 ;; Ok (Some tok))
      else Ok (query_token h)
  | None => Ok (query_token h)
  end.

Definition websocket_endpoint (h : handshake) (websocket : WebSocket)
    (uuid : string) (script : list turn) (s : server) : outcome * server :=
  let serve (s : server) :=
    session_loop websocket uuid script
                 (snd (ConnectionManager.connect uuid websocket s)) in
  match API_BEARER_TOKEN env with
  | None => serve s
  | Some secret =>
      if secret =? EmptyString then serve s
      else match presented_token h with
           | Raise e => (Propagated e, s)
           | Ok token =>
               if option_string_eqb token (Some secret) then serve s
               else (Rejected, emit (Closed websocket 1008) s)
           end
  end.

(** What FastAPI answers for a handler: its content with the route's
    status, the status of an [HTTPException], or 500. *)
Definition respond (route_status : Z) (m : M pyval) (s : server)
  : response * server :=
  match m s with
  | (Ok c, s') => (Response route_status c, s')
  | (Raise (HTTPException code detail), s') =>
      (Response code (PDict [("detail", PStr detail)]), s')
  | (Raise _, s') => (Response 500 (PStr "Internal Server Error"), s')
  end.

Definition delete_device_credential (device_id : string) : M unit :=
  fun s => (check (hub device_id), note_hub_deletion device_id s).

(** [POST /delete_device/{device_id}].  The table of the state is the
    committed one, so [db.rollback()] leaves it as it is. *)
Definition delete_device (f : faults) (device_id : string) : M pyval :=
  try_except (delete_device_credential device_id)
    (fun _ => raise (HTTPException 500 "Azure IoT Hub deletion error")) ;;;
  try_except
    (fun s =>
       match execute_fault f 0 with
       | Some e => (Raise e, s)
       | None =>
           let '(db', rowcount) :=
             delete_where_device_id device_id (deviceids s) in
           if (rowcount =? 0)%nat
           then (Raise (HTTPException 404 "Device ID not found in DB"), s)
           else match commit_fault f with
                | Some e => (Raise e, s)
                | None => (Ok tt, with_deviceids db' s)
                end
       end)
    (fun _ => raise (HTTPException 500 "Database deletion error")) ;;;
  ret (PDict [("deleted_device_id", PStr device_id)]).

(** [f"simdevice{(i+1):04d}" for i in range(1000)] *)
Definition fallback_device_ids : list string :=
  map (fun i => "simdevice" ++ fmt_04d (i + 1)) (seq 0 1000).

(** [for device_id in device_ids: try: delete_device_credential(device_id)
     except Exception: (logged)] *)
Fixpoint delete_credentials (device_ids : list string) : M unit :=
  match device_ids with
  | [] => ret tt
  | k :: device_ids' =>
      try_except (delete_device_credential k) (fun _ => ret tt) ;;;
      delete_credentials device_ids'
  end.

(** [POST /delete_all_devices] *)
Definition delete_all_devices (f : faults) : M pyval :=
  fun s =>
    match execute_fault f 0 with
    | Some e => (Raise e, s)
    | None =>
        let rows := deviceids s in
        let device_ids :=
          match rows with
          | [] => fallback_device_ids
          | _ => map device_id rows
          end in
        (delete_credentials device_ids ;;;
         try_except
           (fun s =>
              match execute_fault f 1 with
              | Some e => (Raise e, s)
              | None => match commit_fault f with
                        | Some e => (Raise e, s)
                        | None => (Ok tt, with_deviceids [] s)
                        end
              end)
           (fun _ => raise (HTTPException 500 "Database deletion error")) ;;;
         ret (PDict [("status", PStr "all devices deleted")])) s
    end.

(** [POST /command/broadcast], from the parsed body. *)
Definition broadcast_command (wires : WebSocket -> option exn) (body : pyval)
  : M pyval :=
  ConnectionManager.broadcast wires body ;;;
  ret (PDict [("status", PStr "broadcasted")]).

(** [POST /command/{uuid}], from the parsed body. *)
Definition send_command (wires : WebSocket -> option exn) (uuid : string)
    (body : pyval) : M pyval :=
  ConnectionManager.send_command wires uuid body ;;;
  ret (PDict [("status", PStr "sent"); ("uuid", PStr uuid)]).

End Endpoints.

(** ** The rest of [iot_simulator_server.py] *)

(** [c in s] for one character. *)
Fixpoint has_char (c : ascii) (s : string) : bool :=
  match s with
  | EmptyString => false
  | String c' s' => Ascii.eqb c' c || has_char c s'
  end.

(** [int(s)] for a string of decimal digits. *)
Definition int_of_digits (s : string) : option nat :=
  option_map Nat.of_uint (NilEmpty.uint_of_string s).

(** [GET /clients]: [list(manager.active_connections.keys())] *)
Definition get_clients (s : server) : list string :=
  Dict.keys (active_connections s).

(** [UPDATE deviceids SET device_uuid = NULL] *)
Definition clear_device_uuid (db : table) : table :=
  map (fun r => Row (device_id r) PNone) db.

(** [POST /clear_mappings] *)
Definition clear_mappings (f : faults) : M pyval :=
  try_except
    (fun s =>
       match execute_fault f 0 with
       | Some e => (Raise e, s)
       | None => match commit_fault f with
                 | Some e => (Raise e, s)
                 | None => (Ok tt, with_deviceids (clear_device_uuid (deviceids s)) s)
                 end
       end)
    (fun _ => raise (HTTPException 500 "Database update error")) ;;;
  ret (PDict [("status", PStr "all mappings cleared")]).

Section Provisioning.

(** What [utils.device.generate_device_credential] returns or raises for a
    key, and what [db.flush()] and [db.commit()] raise in the pass of a
    given rank, if they raise. *)
Variable create : string -> result pyval.
Variable flush_fault : nat -> option exn.
Variable commit_fault_at : nat -> option exn.

(** The passes [i, i + count) of the loop of [generate_devices], with the
    list [device_ids] as built so far.  A row enters the committed table
    when the commit of its pass succeeds. *)
Fixpoint generate_devices_loop (count i : nat) (device_ids : list pyval)
  : M (list pyval) :=
  match count with
  | O => ret device_ids
  | S count' =>
      let device_id := "simdevice" ++ fmt_04d (i + 1) in
      generated <-- try_except (lift (create device_id))
                      (fun _ => raise (HTTPException 500 "Azure IoT Hub error")) ;;;
      try_except (lift (check (flush_fault i)))
        (fun _ => raise (HTTPException 500 "Database error")) ;;;
      try_except
        (fun s => match commit_fault_at i with
                  | Some e => (Raise e, s)
                  | None =>
                      (Ok tt,
                       with_deviceids (deviceids s ++ [Row device_id PNone])%list s)
                  end)
        (fun _ => raise (HTTPException 500 "Database commit error")) ;;;
      generate_devices_loop count' (S i) (device_ids ++ [generated])%list
  end.

(** [POST /generate_device/{number_of_devices}]; [range] of a negative
    number is empty. *)
Definition generate_devices (number_of_devices : Z) : M pyval :=
  device_ids <-- generate_devices_loop (Z.to_nat number_of_devices) 0 [] ;;;
  ret (PDict [("generated_device_ids", PList device_ids)]).

End Provisioning.

(** *** [BearerAuthMiddleware] *)

Definition default_exempt_paths : list string :=
  ["/api/health"; "/docs"; "/openapi.json"; "/redoc"].

(** [self.exempt_paths = exempt_paths or {...}] *)
Definition exempt_paths_or_default (exempt_paths : option (list string))
  : list string :=
  match exempt_paths with
  | Some (p :: ps) => p :: ps
  | _ => default_exempt_paths
  end.

(** [dispatch]: [None] when the request goes on to [call_next], the
    answer of the middleware otherwise. *)
Definition dispatch (token : option string)
    (exempt_paths : option (list string)) (path : string)
    (auth : option string) : result (option response) :=
  match token with
  | None => Ok None
  | Some secret =>
      if secret =? EmptyString then Ok None
      else if existsb (String.eqb path) (exempt_paths_or_default exempt_paths)
      then Ok None
      else
        match auth with
        | Some a =>
            if negb (a =? EmptyString) && String.prefix "bearer " (lower a)
            then
              tok <- index (split1 " " a) 1 ;;
              if negb (tok =? secret)
              then Ok (Some (Response 403
                               (PDict [("detail", PStr "Invalid token")])))
              else Ok None
            else Ok (Some (Response 401
                   (PDict [("detail",
                            PStr "Missing or invalid Authorization header")])))
        | None =>
            Ok (Some (Response 401
                   (PDict [("detail",
                            PStr "Missing or invalid Authorization header")])))
        end
  end.

(** *** [POST /report/{device_id}] *)

(** A row of table [telemetries]. *)
Record telemetry : Type := Telemetry {
  t_deviceid : pyval;
  t_type : pyval;
  t_modelid : pyval;
  t_status : pyval;
  t_temp : pyval;
  t_humidity : pyval;
  t_ts : pyval
}.

(** [report_status], from the parsed body: the answer and the committed
    table [telemetries]. *)
Definition report_status (f : faults) (device_id : string)
    (body : dict pyval) (telemetries : list telemetry)
  : result pyval * list telemetry :=
  let row := Telemetry (Dict.get "deviceId" (PStr EmptyString) body)
                       (Dict.get "Type" (PStr EmptyString) body)
                       (Dict.get "modelId" (PStr EmptyString) body)
                       (Dict.get "Status" (PStr EmptyString) body)
                       (Dict.get "temp" (PInt 20) body)
                       (Dict.get "Humidity" (PInt 50) body)
                       (Dict.get "ts" (PStr EmptyString) body) in
  match execute_fault f 0 with
  | Some _ => (Raise (HTTPException 500 "Database error"), telemetries)
  | None =>
      match commit_fault f with
      | Some _ => (Raise (HTTPException 500 "Database error"), telemetries)
      | None =>
          (Ok (PDict [("status", PStr "saved"); ("device_id", PStr device_id)]),
           (telemetries ++ [row])%list)
      end
  end.

(** Code that leaves the registry as it found it. *)
Definition keeps_registry {A} (m : M A) : Prop :=
  forall s, active_connections (snd (m s)) = active_connections s.

(** * Properties *)

(** ** The order of keys *)

Module KeyOrder.
Import OrdersEx.

Lemma le_iff (a b : string) :
  str_le a b = true <-> String_as_OT.lt a b \/ a = b.
Proof.
  unfold str_le.
  destruct (String_as_OT.compare_spec a b) as [E | L | G]; split; intro H;
    try discriminate; auto.
  destruct H as [L | E].
  - exfalso. apply (StrictOrder_Irreflexive a).
    exact (StrictOrder_Transitive _ _ _ L G).
  - subst. exfalso. exact (StrictOrder_Irreflexive _ G).
Qed.

Lemma le_refl (a : string) : str_le a a = true.
Proof. apply le_iff. now right. Qed.

Lemma le_trans (a b c : string) :
  str_le a b = true -> str_le b c = true -> str_le a c = true.
Proof.
  rewrite !le_iff. intros [L1 | ->] [L2 | ->]; auto.
  left. exact (StrictOrder_Transitive _ _ _ L1 L2).
Qed.

Lemma le_total (a b : string) : str_le a b = true \/ str_le b a = true.
Proof.
  rewrite !le_iff.
  destruct (String_as_OT.compare_spec a b) as [E | L | G]; auto.
Qed.

Lemma le_antisym (a b : string) :
  str_le a b = true -> str_le b a = true -> a = b.
Proof.
  rewrite !le_iff. intros [L1 | E] [L2 | E']; auto.
  exfalso. apply (StrictOrder_Irreflexive a).
  exact (StrictOrder_Transitive _ _ _ L1 L2).
Qed.

End KeyOrder.

(** ** The SELECT of [assign_device_id] *)

Lemma insert_asc_not_nil (k : string) (l : list string) : insert_asc k l <> [].
Proof. destruct l as [| x l]; simpl; [| destruct (str_le k x)]; discriminate. Qed.

Lemma order_by_asc_nil (l : list string) : order_by_asc l = [] -> l = [].
Proof.
  destruct l as [| k l]; simpl; intro H; [reflexivity |].
  now apply insert_asc_not_nil in H.
Qed.

(** The first key of the ordered list is a key of the list and no key of
    the list is below it. *)
Lemma order_by_asc_head (l : list string) (k : string) :
  hd_error (order_by_asc l) = Some k ->
  In k l /\ forall x, In x l -> str_le k x = true.
Proof.
  revert k. induction l as [| a l IH]; simpl; intros k H; [discriminate |].
  destruct (order_by_asc l) as [| x m] eqn:E.
  - apply order_by_asc_nil in E. subst l. simpl in H.
    injection H as <-. split; [now left |].
    intros y [<- | []]. apply KeyOrder.le_refl.
  - destruct (IH x eq_refl) as [Hin Hmin]. simpl in H.
    destruct (str_le a x) eqn:Hax; simpl in H; injection H as <-.
    + split; [now left |].
      intros y [<- | Hy]; [apply KeyOrder.le_refl |].
      eapply KeyOrder.le_trans; [exact Hax | now apply Hmin].
    + split; [now right |].
      intros y [<- | Hy]; [| now apply Hmin].
      destruct (KeyOrder.le_total x a) as [H | H]; [exact H | congruence].
Qed.

Lemma hd_error_firstn_1 {A} (l : list A) : hd_error (firstn 1 l) = hd_error l.
Proof. now destruct l. Qed.

Lemma select_first_unassigned_spec (db : table) (k : string) :
  select_first_unassigned db = Some k ->
  In k (map device_id (filter unassigned db)) /\
  forall r, In r db -> unassigned r = true -> str_le k (device_id r) = true.
Proof.
  unfold select_first_unassigned. rewrite hd_error_firstn_1. intro H.
  apply order_by_asc_head in H. destruct H as [Hin Hmin]. split; [exact Hin |].
  intros r Hr Hu. apply Hmin, in_map, filter_In. now split.
Qed.

Lemma select_first_unassigned_none (db : table) :
  select_first_unassigned db = None <-> filter unassigned db = [].
Proof.
  unfold select_first_unassigned. rewrite hd_error_firstn_1. split; intro H.
  - destruct (order_by_asc (map device_id (filter unassigned db))) eqn:E;
      [| discriminate].
    apply order_by_asc_nil in E. now apply map_eq_nil in E.
  - now rewrite H.
Qed.

Lemma select_first_unassigned_some (db : table) :
  filter unassigned db <> [] -> exists k, select_first_unassigned db = Some k.
Proof.
  intro H. destruct (select_first_unassigned db) as [k |] eqn:E; [eauto |].
  now apply select_first_unassigned_none in E.
Qed.

(** ** [assign_device_id] *)

Lemma update_device_uuid_keys (m : pyval) (k : string) (db : table) :
  map device_id (update_device_uuid m k db) = map device_id db.
Proof.
  unfold update_device_uuid. rewrite map_map. apply map_ext.
  intro r. now destruct (device_id r =? k).
Qed.

Lemma update_device_uuid_nth (m : pyval) (k : string) (db : table) i r :
  nth_error db i = Some r ->
  nth_error (update_device_uuid m k db) i =
    Some (if device_id r =? k then Row k m else r).
Proof.
  intro H. unfold update_device_uuid. rewrite nth_error_map, H. simpl.
  destruct (device_id r =? k) eqn:E; [| reflexivity].
  apply String.eqb_eq in E. now rewrite E.
Qed.

(** After a binding to a value that is not NULL, the unassigned rows are
    the ones that were unassigned under another key. *)
Lemma update_device_uuid_unassigned (m : pyval) (k : string) (db : table) :
  is_null m = false ->
  filter unassigned (update_device_uuid m k db) =
  filter (fun r => unassigned r && negb (device_id r =? k)) db.
Proof.
  intro Hm. induction db as [| r db IH]; simpl; [reflexivity |].
  destruct (device_id r =? k); simpl.
  - unfold unassigned at 1. simpl. rewrite Hm, andb_false_r. exact IH.
  - rewrite andb_true_r. destruct (unassigned r); now rewrite IH.
Qed.

Lemma assign_device_id_no_faults (m : pyval) (db : table) :
  assign_device_id no_faults m db =
    match select_first_unassigned db with
    | None => (Raise (HTTPException 404 "No available device IDs to assign"), db)
    | Some k => (Ok k, update_device_uuid m k db)
    end.
Proof. unfold assign_device_id. simpl. now destruct (select_first_unassigned db). Qed.

(** A call that runs alone through its two statements is
    [assign_device_id]. *)
Lemma claim_task_alone (m : pyval) (db : table) :
  claim_step (fst (claim_step (Start m) db)) (snd (claim_step (Start m) db)) =
  (Finished (fst (assign_device_id no_faults m db)),
   snd (assign_device_id no_faults m db)).
Proof.
  rewrite assign_device_id_no_faults. simpl.
  now destruct (select_first_unassigned db).
Qed.

(** C5. When the pool has an unassigned key, [assign_device_id] answers the
    lowest unassigned key in lexicographic order, and the table it leaves
    differs from the old one only in the rows of that key, which carry the
    token. *)
Theorem assign_device_id_lowest_unassigned (token : string) (db : table) :
  (exists r, In r db /\ unassigned r = true) ->
  exists k db',
    assign_device_id no_faults (PStr token) db = (Ok k, db') /\
    (exists r, In r db /\ unassigned r = true /\ device_id r = k) /\
    (forall r, In r db -> unassigned r = true -> str_le k (device_id r) = true) /\
    List.length db' = List.length db /\
    (forall i r, nth_error db i = Some r ->
       nth_error db' i =
         Some (if device_id r =? k then Row k (PStr token) else r)).
Proof.
  intros (r0 & Hin0 & Hu0).
  destruct (select_first_unassigned_some db) as [k Hk].
  { intro E. assert (H : In r0 (filter unassigned db)) by now apply filter_In.
    now rewrite E in H. }
  exists k, (update_device_uuid (PStr token) k db).
  rewrite assign_device_id_no_faults, Hk.
  destruct (select_first_unassigned_spec db k Hk) as [Hin Hmin].
  repeat split.
  - apply in_map_iff in Hin. destruct Hin as (r & Hr & Hf).
    apply filter_In in Hf. exists r. tauto.
  - exact Hmin.
  - unfold update_device_uuid. apply length_map.
  - intros i r. apply update_device_uuid_nth.
Qed.

(** Two free keys out of order and one taken: the claim answers
    [simdevice0001]. *)
Lemma assign_device_id_lowest_unassigned_witness :
  let db := [Row "simdevice0002" PNone; Row "simdevice0001" PNone;
             Row "simdevice0000" (PStr "abc")] in
  exists k db',
    assign_device_id no_faults (PStr "tok1") db = (Ok k, db') /\
    (exists r, In r db /\ unassigned r = true /\ device_id r = k) /\
    (forall r, In r db -> unassigned r = true -> str_le k (device_id r) = true) /\
    List.length db' = List.length db /\
    (forall i r, nth_error db i = Some r ->
       nth_error db' i =
         Some (if device_id r =? k then Row k (PStr "tok1") else r)).
Proof.
  intro db. apply (assign_device_id_lowest_unassigned "tok1" db).
  exists (Row "simdevice0002" PNone). split; [now left | reflexivity].
Defined.

(** C6. When no key of the pool is unassigned, [assign_device_id] raises
    (the 404 "not found" error when the storage layer itself works) and the
    table is the one it was. *)
Theorem assign_device_id_exhausted (f : faults) (message_id : pyval)
    (db : table) :
  (forall r, In r db -> unassigned r = false) ->
  exists e,
    assign_device_id f message_id db = (Raise e, db) /\
    (execute_fault f 0 = None ->
     e = HTTPException 404 "No available device IDs to assign").
Proof.
  intro H.
  assert (E : select_first_unassigned db = None).
  { apply select_first_unassigned_none.
    induction db as [| r db IH]; simpl; [reflexivity |].
    rewrite (H r (or_introl eq_refl)). apply IH.
    intros r' Hr'. apply H. now right. }
  unfold assign_device_id. rewrite E.
  destruct (execute_fault f 0) as [e |]; eexists; split; try reflexivity.
  discriminate.
Qed.

(** A pool whose only key is taken. *)
Lemma assign_device_id_exhausted_witness :
  exists e,
    assign_device_id no_faults (PStr "tok1") [Row "simdevice0001" (PStr "abc")] =
      (Raise e, [Row "simdevice0001" (PStr "abc")]) /\
    (execute_fault no_faults 0 = None ->
     e = HTTPException 404 "No available device IDs to assign").
Proof.
  apply (assign_device_id_exhausted no_faults (PStr "tok1")
           [Row "simdevice0001" (PStr "abc")]).
  intros r [<- | []]. reflexivity.
Defined.

(** ** Claims one after another *)

Lemma filter_other_key (k : string) (db : table) :
  ~ In k (map device_id db) ->
  filter (fun r => unassigned r && negb (device_id r =? k)) db =
  filter unassigned db.
Proof.
  intro H. apply filter_ext_in. intros r Hr.
  destruct (device_id r =? k) eqn:E; [| now rewrite andb_true_r].
  apply String.eqb_eq in E. exfalso. apply H. rewrite <- E. now apply in_map.
Qed.

(** With unique keys, a claim takes exactly one row out of the unassigned
    ones. *)
Lemma bound_row_count (k : string) (db : table) :
  NoDup (map device_id db) ->
  In k (map device_id (filter unassigned db)) ->
  S (List.length (filter (fun r => unassigned r && negb (device_id r =? k)) db))
  = List.length (filter unassigned db).
Proof.
  induction db as [| r db IH]; simpl; intros Hnd Hin; [contradiction |].
  inversion Hnd as [| ? ? Hfresh Hnd']; subst.
  assert (Hsub : forall x, In x (map device_id (filter unassigned db)) ->
                           In x (map device_id db)).
  { intros x Hx. apply in_map_iff in Hx. destruct Hx as (r' & <- & Hr').
    apply filter_In in Hr'. now apply in_map. }
  destruct (device_id r =? k) eqn:E.
  - apply String.eqb_eq in E. subst k. rewrite andb_false_r.
    rewrite (filter_other_key _ _ Hfresh).
    destruct (unassigned r); simpl in *; [reflexivity |].
    exfalso. auto.
  - rewrite andb_true_r. apply String.eqb_neq in E.
    destruct (unassigned r); simpl in *.
    + f_equal. apply IH; [exact Hnd' |]. now destruct Hin.
    + now apply IH.
Qed.

Lemma claim_all_cons (tok : string) (tokens : list string) (db : table) :
  claim_all (tok :: tokens) db =
  (fst (assign_device_id no_faults (PStr tok) db)
     :: fst (claim_all tokens (snd (assign_device_id no_faults (PStr tok) db))),
   snd (claim_all tokens (snd (assign_device_id no_faults (PStr tok) db)))).
Proof.
  simpl. destruct (assign_device_id no_faults (PStr tok) db) as [r db'].
  simpl. now destruct (claim_all tokens db').
Qed.

(** Every key answered by a run of claims was unassigned when the run
    started. *)
Lemma claim_all_returns_unassigned (tokens : list string) :
  forall (db : table) (k : string),
    In k (returned_keys (fst (claim_all tokens db))) ->
    In k (map device_id (filter unassigned db)).
Proof.
  induction tokens as [| tok tokens IH]; intros db k; [contradiction |].
  rewrite claim_all_cons, assign_device_id_no_faults.
  destruct (select_first_unassigned db) as [k0 |] eqn:E; simpl.
  - intros [<- | Hin].
    + now apply select_first_unassigned_spec.
    + apply IH in Hin.
      rewrite update_device_uuid_unassigned in Hin by reflexivity.
      apply in_map_iff in Hin. destruct Hin as (r & <- & Hr).
      apply filter_In in Hr. destruct Hr as [Hr Hf].
      apply andb_prop in Hf. apply in_map, filter_In. tauto.
  - apply IH.
Qed.

(** C1, for calls that do not interleave.  When N claims run one after
    another on a pool of unique keys with at least N unassigned ones, every
    claim answers a key and the N keys are pairwise distinct. *)
Theorem claim_all_distinct (tokens : list string) :
  forall db : table,
    NoDup (map device_id db) ->
    List.length tokens <= List.length (filter unassigned db) ->
    all_ok (fst (claim_all tokens db)) = true /\
    List.length (returned_keys (fst (claim_all tokens db))) = List.length tokens /\
    NoDup (returned_keys (fst (claim_all tokens db))).
Proof.
  induction tokens as [| tok tokens IH]; intros db Hnd Hlen.
  - simpl. repeat split. constructor.
  - rewrite claim_all_cons, assign_device_id_no_faults.
    destruct (select_first_unassigned db) as [k |] eqn:E.
    + destruct (select_first_unassigned_spec db k E) as [Hin _].
      pose proof (bound_row_count k db Hnd Hin) as Hcount.
      set (db' := update_device_uuid (PStr tok) k db).
      assert (Hun : filter unassigned db' =
                    filter (fun r => unassigned r && negb (device_id r =? k)) db)
        by now apply update_device_uuid_unassigned.
      destruct (IH db') as (Hok & Hn & Hd).
      { unfold db'. now rewrite update_device_uuid_keys. }
      { rewrite Hun. simpl in Hlen. lia. }
      simpl. repeat split; [exact Hok | now rewrite Hn |].
      constructor; [| exact Hd].
      intro Hk. apply claim_all_returns_unassigned in Hk.
      rewrite Hun in Hk. apply in_map_iff in Hk.
      destruct Hk as (r & Hr & Hf). apply filter_In in Hf.
      destruct Hf as [_ Hf]. apply andb_prop in Hf. destruct Hf as [_ Hf].
      rewrite Hr, String.eqb_refl in Hf. discriminate.
    + apply select_first_unassigned_none in E. rewrite E in Hlen.
      simpl in Hlen. lia.
Qed.

(** The same on a pool of three keys. *)
Lemma claim_all_distinct_witness :
  let db := [Row "simdevice0002" PNone; Row "simdevice0001" PNone;
             Row "simdevice0003" (PStr "taken"); Row "simdevice0004" PNone] in
  all_ok (fst (claim_all ["abc"; "def"] db)) = true /\
  List.length (returned_keys (fst (claim_all ["abc"; "def"] db))) = 2 /\
  NoDup (returned_keys (fst (claim_all ["abc"; "def"] db))).
Proof.
  apply (@claim_all_distinct ["abc"; "def"]).
  - simpl. repeat constructor; simpl; intuition discriminate.
  - simpl. lia.
Defined.

(** C1 as stated fails: with the SELECT of one call running between the
    SELECT and the UPDATE of another, two claims on a pool of two free keys
    both answer [simdevice0001]. *)
Lemma concurrent_claims_share_a_key :
  ~ (forall (sched : list nat) (tokens : list string) (db : table),
       NoDup (map device_id db) ->
       List.length tokens <= List.length (filter unassigned db) ->
       all_finished
         (fst (run_schedule sched (map (fun t => Start (PStr t)) tokens) db))
         = true ->
       NoDup (returned_keys (task_results
         (fst (run_schedule sched (map (fun t => Start (PStr t)) tokens) db))))).
Proof.
  intro H.
  specialize (H [0; 1; 0; 1] ["a"; "b"]
                [Row "simdevice0001" PNone; Row "simdevice0002" PNone]).
  assert (Hd : NoDup ["simdevice0001"; "simdevice0001"]).
  { apply H.
    - simpl. repeat constructor; simpl; intuition discriminate.
    - simpl. lia.
    - reflexivity. }
  inversion Hd as [| ? ? Hnotin _]. apply Hnotin. now left.
Qed.

(** ** The connection registry *)

Module DictFacts.
Section Facts.
Context {V : Type}.

Lemma lookup_pop_other (k k' : string) (d : dict V) :
  k' <> k -> Dict.lookup k' (Dict.pop k d) = Dict.lookup k' d.
Proof.
  intro Hne. induction d as [| [k0 v0] d IH]; simpl; [reflexivity |].
  destruct (k =? k0) eqn:E.
  - apply String.eqb_eq in E. subst k0.
    apply String.eqb_neq in Hne. now rewrite Hne.
  - simpl. now rewrite IH.
Qed.

Lemma lookup_none_keys (k : string) (d : dict V) :
  Dict.lookup k d = None <-> ~ In k (Dict.keys d).
Proof.
  induction d as [| [k0 v0] d IH]; simpl; [tauto |].
  destruct (k =? k0) eqn:E.
  - apply String.eqb_eq in E. subst k0. split; [discriminate | tauto].
  - apply String.eqb_neq in E. rewrite IH. split; [| tauto].
    intros H [H' | H']; [now apply E | now apply H].
Qed.

Lemma lookup_in (k : string) (v : V) (d : dict V) :
  NoDup (Dict.keys d) -> In (k, v) d -> Dict.lookup k d = Some v.
Proof.
  induction d as [| [k0 v0] d IH]; simpl; intros Hnd Hin; [contradiction |].
  inversion Hnd as [| ? ? Hfresh Hnd']; subst.
  destruct Hin as [E | Hin].
  - injection E as -> ->. now rewrite String.eqb_refl.
  - destruct (k =? k0) eqn:E; [| now apply IH].
    apply String.eqb_eq in E. subst k0. exfalso. apply Hfresh.
    change k with (fst (k, v)). now apply in_map.
Qed.

(** An entry found by [lookup] splits the dict at its first occurrence. *)
Lemma lookup_split (k : string) (v : V) (d : dict V) :
  Dict.lookup k d = Some v ->
  exists l1 l2, d = (l1 ++ (k, v) :: l2)%list /\ ~ In k (Dict.keys l1).
Proof.
  induction d as [| [k0 v0] d IH]; simpl; [discriminate |].
  destruct (k =? k0) eqn:E.
  - apply String.eqb_eq in E. subst k0. intros [= ->].
    exists [], d. now split.
  - intro H. destruct (IH H) as (l1 & l2 & -> & Hnot).
    exists ((k0, v0) :: l1), l2. split; [reflexivity |].
    apply String.eqb_neq in E. simpl. intros [H' | H']; [now apply E | auto].
Qed.

Lemma pop_split (k : string) (v : V) (l1 l2 : dict V) :
  ~ In k (Dict.keys l1) ->
  Dict.pop k (l1 ++ (k, v) :: l2)%list = (l1 ++ l2)%list.
Proof.
  induction l1 as [| [k0 v0] l1 IH]; simpl; intro H.
  - now rewrite String.eqb_refl.
  - destruct (k =? k0) eqn:E.
    + apply String.eqb_eq in E. subst k0. exfalso. now apply H; left.
    + rewrite IH; [reflexivity | tauto].
Qed.

Lemma pop_absent (k : string) (d : dict V) :
  ~ In k (Dict.keys d) -> Dict.pop k d = d.
Proof.
  induction d as [| [k0 v0] d IH]; simpl; intro H; [reflexivity |].
  destruct (k =? k0) eqn:E.
  - apply String.eqb_eq in E. subst k0. exfalso. now apply H; left.
  - rewrite IH; [reflexivity | tauto].
Qed.

Lemma keys_pop_incl (k x : string) (d : dict V) :
  In x (Dict.keys (Dict.pop k d)) -> In x (Dict.keys d).
Proof.
  induction d as [| [k0 v0] d IH]; simpl; [tauto |].
  destruct (k =? k0); simpl; tauto.
Qed.

(** [pop] and [d[k] = v] keep the keys of a dict unique. *)
Lemma pop_NoDup (k : string) (d : dict V) :
  NoDup (Dict.keys d) -> NoDup (Dict.keys (Dict.pop k d)).
Proof.
  induction d as [| [k0 v0] d IH]; simpl; intro H; [exact H |].
  inversion H as [| ? ? Hfresh Hnd]; subst.
  destruct (k =? k0); simpl; [exact Hnd |].
  constructor; [| now apply IH].
  intro Hin. now apply Hfresh, keys_pop_incl with (k := k).
Qed.

Lemma keys_set_incl (k x : string) (v : V) (d : dict V) :
  In x (Dict.keys (Dict.set k v d)) -> x = k \/ In x (Dict.keys d).
Proof.
  induction d as [| [k0 v0] d IH]; simpl; [intuition |].
  destruct (k =? k0) eqn:E; simpl; [| intuition].
  apply String.eqb_eq in E. subst k0. intuition.
Qed.

Lemma set_NoDup (k : string) (v : V) (d : dict V) :
  NoDup (Dict.keys d) -> NoDup (Dict.keys (Dict.set k v d)).
Proof.
  induction d as [| [k0 v0] d IH]; simpl; intro H.
  - repeat constructor. tauto.
  - inversion H as [| ? ? Hfresh Hnd]; subst.
    destruct (k =? k0) eqn:E; simpl.
    + apply String.eqb_eq in E. now subst k0.
    + constructor; [| now apply IH].
      intro Hin. apply keys_set_incl in Hin. destruct Hin as [-> | Hin];
        [now rewrite String.eqb_refl in E | now apply Hfresh].
Qed.

Lemma lookup_pop_same (k : string) (d : dict V) :
  NoDup (Dict.keys d) -> Dict.lookup k (Dict.pop k d) = None.
Proof.
  intro Hnd. destruct (Dict.lookup k d) as [v |] eqn:E.
  - destruct (lookup_split _ _ _ E) as (l1 & l2 & -> & Hnot).
    rewrite pop_split by exact Hnot. apply lookup_none_keys.
    unfold Dict.keys in *. rewrite map_app in *. simpl in Hnd.
    apply NoDup_remove_2 in Hnd. exact Hnd.
  - apply lookup_none_keys in E. rewrite pop_absent by exact E.
    now apply lookup_none_keys.
Qed.

End Facts.
End DictFacts.

(** The frames a broadcast puts on the channels of some entries. *)
Lemma broadcast_items_healthy (wires : WebSocket -> option exn)
    (command : pyval) (items : list (string * WebSocket)) :
  (forall k ws, In (k, ws) items -> wires ws = None) ->
  forall s,
    ConnectionManager.broadcast_items wires command items s =
    (Ok tt,
     Server (active_connections s) (deviceids s)
            (wire s ++ map (fun kv => Frame (snd kv) command) items)%list
            (hub_deletions s) (entropy s)).
Proof.
  induction items as [| [k ws] items IH]; intros Hok s; simpl.
  - unfold ret. rewrite app_nil_r. now destruct s.
  - unfold bindM, try_except, send_json.
    rewrite (Hok k ws) by now left.
    rewrite IH by (intros k' ws' H; apply (Hok k' ws'); now right).
    simpl. now rewrite <- app_assoc.
Qed.

Lemma broadcast_items_app (wires : WebSocket -> option exn) (command : pyval)
    (l1 l2 : list (string * WebSocket)) (s : server) :
  ConnectionManager.broadcast_items wires command (l1 ++ l2)%list s =
  match ConnectionManager.broadcast_items wires command l1 s with
  | (Ok _, s') => ConnectionManager.broadcast_items wires command l2 s'
  | (Raise e, s') => (Raise e, s')
  end.
Proof.
  revert s. induction l1 as [| [k ws] l1 IH]; intro s; simpl; [reflexivity |].
  unfold bindM.
  destruct (try_except (send_json (wires ws) ws command)
              (fun _ => ConnectionManager.disconnect k) s) as [[[] | e] s'];
    [apply IH | reflexivity].
Qed.

(** C7. A broadcast over a registry in which exactly one entry has a
    channel whose send raises: the call returns normally, each other entry
    gets the message once, the failing key and no other leaves the registry. *)
Theorem broadcast_one_dead_channel (wires : WebSocket -> option exn)
    (command : pyval) (s : server) (k : string) (ws : WebSocket) (e : exn) :
  NoDup (Dict.keys (active_connections s)) ->
  Dict.lookup k (active_connections s) = Some ws ->
  wires ws = Some e ->
  (forall k' ws', k' <> k ->
     Dict.lookup k' (active_connections s) = Some ws' -> wires ws' = None) ->
  exists s',
    ConnectionManager.broadcast wires command s = (Ok tt, s') /\
    active_connections s' = Dict.pop k (active_connections s) /\
    Dict.lookup k (active_connections s') = None /\
    (forall k', k' <> k ->
       Dict.lookup k' (active_connections s') =
       Dict.lookup k' (active_connections s)) /\
    wire s' =
      (wire s ++ map (fun kv => Frame (snd kv) command)
                     (Dict.pop k (active_connections s)))%list /\
    S (List.length (Dict.pop k (active_connections s))) =
      List.length (active_connections s).
Proof.
  intros Hnd Hk He Hothers.
  destruct (DictFacts.lookup_split _ _ _ Hk) as (l1 & l2 & Hreg & Hnot1).
  assert (Hpop : Dict.pop k (active_connections s) = (l1 ++ l2)%list)
    by (rewrite Hreg; now apply DictFacts.pop_split).
  assert (Hnot2 : ~ In k (Dict.keys l2)).
  { rewrite Hreg in Hnd. unfold Dict.keys in *. rewrite map_app in Hnd.
    simpl in Hnd. apply NoDup_remove_2 in Hnd. intro H. apply Hnd.
    apply in_or_app. now right. }
  assert (Hlive : forall k' ws', In (k', ws') (l1 ++ l2)%list -> wires ws' = None).
  { intros k' ws' Hin. apply (Hothers k').
    - intros ->. apply in_app_or in Hin.
      destruct Hin as [Hin | Hin]; [apply Hnot1 | apply Hnot2];
        change k with (fst (k, ws')); now apply in_map.
    - apply DictFacts.lookup_in; [exact Hnd |]. rewrite Hreg.
      apply in_app_or in Hin. apply in_or_app.
      destruct Hin; [now left | right; now right]. }
  exists (Server (l1 ++ l2)%list (deviceids s)
            ((wire s ++ map (fun kv => Frame (snd kv) command) l1) ++
             map (fun kv => Frame (snd kv) command) l2)%list
            (hub_deletions s) (entropy s)).
  split; [| split; [| split; [| split; [| split]]]].
  - unfold ConnectionManager.broadcast. rewrite Hreg at 1.
    rewrite broadcast_items_app.
    rewrite broadcast_items_healthy
      by (intros k' ws' H; apply (Hlive k' ws'), in_or_app; now left).
    simpl. unfold bindM, try_except, send_json. rewrite He. simpl.
    rewrite broadcast_items_healthy
      by (intros k' ws' H; apply (Hlive k' ws'), in_or_app; now right).
    simpl. rewrite Hpop. reflexivity.
  - simpl. now rewrite Hpop.
  - simpl. rewrite <- Hpop. now apply DictFacts.lookup_pop_same.
  - intros k' Hne. simpl. rewrite <- Hpop. now apply DictFacts.lookup_pop_other.
  - simpl. now rewrite Hpop, <- app_assoc, map_app.
  - rewrite Hpop, Hreg, !length_app. simpl. lia.
Qed.

(** Three registered connections, the second one dead. *)
Lemma broadcast_one_dead_channel_witness :
  let wires := fun ws : WebSocket =>
    if Nat.eqb ws 2 then Some (RuntimeError "closed") else None in
  let s := Server [("a", 1); ("b", 2); ("c", 3)] [] [] [] 0 in
  exists s',
    ConnectionManager.broadcast wires (PStr "ping") s = (Ok tt, s') /\
    active_connections s' = [("a", 1); ("c", 3)] /\
    Dict.lookup "b" (active_connections s') = None /\
    (forall k', k' <> "b" ->
       Dict.lookup k' (active_connections s') =
       Dict.lookup k' [("a", 1); ("b", 2); ("c", 3)]) /\
    wire s' = [Frame 1 (PStr "ping"); Frame 3 (PStr "ping")] /\
    S (List.length [("a", 1); ("c", 3)]) = 3.
Proof.
  intros wires s.
  apply (broadcast_one_dead_channel wires (PStr "ping") s "b" 2
           (RuntimeError "closed")).
  - simpl. repeat constructor; simpl; intuition discriminate.
  - reflexivity.
  - reflexivity.
  - intros k' ws' Hne. simpl.
    destruct (k' =? "a"); [now intros [= <-] |].
    destruct (k' =? "b") eqn:E; [apply String.eqb_eq in E; contradiction |].
    destruct (k' =? "c"); [now intros [= <-] | discriminate].
Defined.

(** C10. A targeted send to a key the registry does not hold raises
    nothing, sends nothing and leaves the state as it is, and
    [POST /command/{key}] answers [{"status": "sent", "uuid": key}]. *)
Theorem send_command_unknown_key (wires : WebSocket -> option exn)
    (uuid : string) (body : pyval) (s : server) :
  Dict.lookup uuid (active_connections s) = None ->
  ConnectionManager.send_command wires uuid body s = (Ok tt, s) /\
  respond 200 (send_command wires uuid body) s =
    (Response 200 (PDict [("status", PStr "sent"); ("uuid", PStr uuid)]), s).
Proof.
  intro H. unfold respond, send_command, bindM, ConnectionManager.send_command.
  now rewrite H.
Qed.

Lemma send_command_unknown_key_witness :
  let s := Server [("a", 1)] [] [] [] 0 in
  ConnectionManager.send_command (fun _ => None) "zz" (PStr "go") s = (Ok tt, s) /\
  respond 200 (send_command (fun _ => None) "zz" (PStr "go")) s =
    (Response 200 (PDict [("status", PStr "sent"); ("uuid", PStr "zz")]), s).
Proof.
  intro s. apply (send_command_unknown_key (fun _ => None) "zz" (PStr "go") s).
  reflexivity.
Defined.

(** ** Envelopes *)

Lemma py_or_truthy_l (a b : pyval) : truthy a = true -> py_or a b = a.
Proof. unfold py_or. now intros ->. Qed.

Lemma truthy_py_or (a b : pyval) : truthy b = true -> truthy (py_or a b) = true.
Proof. unfold py_or. intro H. now destruct (truthy a) eqn:E. Qed.

Lemma py_or_idem (a b : pyval) : py_or (py_or a b) b = py_or a b.
Proof. unfold py_or. destruct (truthy a) eqn:E; [now rewrite E | now destruct (truthy b)]. Qed.

Lemma truthy_PStr (s : string) : s <> EmptyString -> truthy (PStr s) = true.
Proof. intro H. simpl. apply String.eqb_neq in H. now rewrite H. Qed.

(** An envelope whose id, correlation id and timestamp are truthy and whose
    payload and meta are what [x or {}] gives goes through [to_dict] and
    [from_dict] unchanged, whatever the clock of the parsing side. *)
Lemma from_dict_to_dict (c' : MessageEnvelope.clock)
    (version type id correlationId ts action status payload meta : pyval) :
  truthy id = true ->
  truthy correlationId = true ->
  truthy ts = true ->
  py_or payload (PDict []) = payload ->
  py_or meta (PDict []) = meta ->
  MessageEnvelope.from_dict c'
    (MessageEnvelope.to_dict
       (MessageEnvelope.Build version type id correlationId ts action status
                              payload meta)) =
  Ok (MessageEnvelope.Build version type id correlationId ts action status
                            payload meta).
Proof.
  intros Hid Hcorr Hts Hp Hm.
  unfold MessageEnvelope.to_dict, MessageEnvelope.from_dict, MessageEnvelope.init.
  destruct status; cbn;
    rewrite !(py_or_truthy_l _ _ Hid), !(py_or_truthy_l _ _ Hcorr),
            !(py_or_truthy_l _ _ Hts), Hp, Hm; reflexivity.
Qed.

(** C8. Every envelope that the constructor builds is reproduced field by
    field by [from_dict (to_dict e)]: an absent status stays absent, and
    the id, correlation id and timestamp are the ones of [e] whatever the
    parsing side would generate. *)
Theorem envelope_round_trip (c c' : MessageEnvelope.clock) (kw : dict pyval)
    (e : MessageEnvelope.t) :
  MessageEnvelope.uuid4 c <> EmptyString ->
  MessageEnvelope.iso_now c <> EmptyString ->
  MessageEnvelope.init c kw = Ok e ->
  MessageEnvelope.from_dict c' (MessageEnvelope.to_dict e) = Ok e.
Proof.
  intros Hu Hn. unfold MessageEnvelope.init.
  destruct (MessageEnvelope.unexpected_keyword kw); [discriminate |].
  destruct (Dict.lookup "action" kw); [| discriminate].
  intros [= <-]. apply from_dict_to_dict.
  - now apply truthy_py_or, truthy_PStr.
  - now apply truthy_py_or, truthy_py_or, truthy_PStr.
  - now apply truthy_py_or, truthy_PStr.
  - apply py_or_idem.
  - apply py_or_idem.
Qed.

(** A command built with nothing but an action, parsed back on a later
    clock. *)
Lemma envelope_round_trip_witness :
  let c := MessageEnvelope.Clock "6f1c" "2025-11-28T05:15:37Z" in
  let c' := MessageEnvelope.Clock "9a2e" "2025-11-28T05:15:38Z" in
  let e := MessageEnvelope.Build (PInt 1) (PStr "command") (PStr "6f1c")
             (PStr "6f1c") (PStr "2025-11-28T05:15:37Z")
             (PStr "device.restart") PNone (PDict []) (PDict []) in
  MessageEnvelope.from_dict c' (MessageEnvelope.to_dict e) = Ok e.
Proof.
  intros c c' e.
  apply (envelope_round_trip c c' [("action", PStr "device.restart")] e).
  - discriminate.
  - discriminate.
  - reflexivity.
Defined.

(** What [from_dict] regenerates: a timestamp or an id missing from the
    input (or falsy there) is taken from the clock of the parsing side. *)
Lemma from_dict_regenerates (c' : MessageEnvelope.clock) :
  MessageEnvelope.from_dict c' [("action", PStr "a"); ("id", PStr "m1")] =
  Ok (MessageEnvelope.Build (PInt 1) (PStr "command") (PStr "m1") (PStr "m1")
        (PStr (MessageEnvelope.iso_now c')) (PStr "a") PNone (PDict [])
        (PDict [])).
Proof. reflexivity. Qed.

(** ** Deleting identities *)

Lemma delete_credentials_log (hub : string -> option exn)
    (device_ids : list string) (s : server) :
  delete_credentials hub device_ids s =
  (Ok tt,
   Server (active_connections s) (deviceids s) (wire s)
          (hub_deletions s ++ device_ids)%list (entropy s)).
Proof.
  revert s. induction device_ids as [| k ids IH]; intro s; simpl.
  - unfold ret. rewrite app_nil_r. now destruct s.
  - unfold bindM, try_except, delete_device_credential, ret.
    destruct (check (hub k)); rewrite IH; simpl; now rewrite <- app_assoc.
Qed.

(** C4, as the code has it.  [delete_all_devices] asks the device platform
    to delete exactly the keys the table lists when it lists any; on an
    empty table it falls back to the thousand keys [simdevice0001] to
    [simdevice1000] and asks for each of them. *)
Theorem delete_all_devices_targets (hub : string -> option exn) (f : faults)
    (s : server) :
  execute_fault f 0 = None ->
  (deviceids s <> [] ->
   hub_deletions (snd (delete_all_devices hub f s)) =
     (hub_deletions s ++ map device_id (deviceids s))%list) /\
  (deviceids s = [] ->
   hub_deletions (snd (delete_all_devices hub f s)) =
     (hub_deletions s ++ fallback_device_ids)%list /\
   List.length fallback_device_ids = 1000 /\
   hd_error fallback_device_ids = Some "simdevice0001" /\
   nth_error fallback_device_ids 999 = Some "simdevice1000").
Proof.
  intro Hf.
  assert (H : hub_deletions (snd (delete_all_devices hub f s)) =
              (hub_deletions s ++
               match deviceids s with
               | [] => fallback_device_ids
               | _ => map device_id (deviceids s)
               end)%list).
  { unfold delete_all_devices. rewrite Hf. unfold bindM at 1.
    rewrite delete_credentials_log.
    unfold bindM, try_except, raise, ret. simpl.
    destruct (execute_fault f 1); [reflexivity |].
    destruct (commit_fault f); reflexivity. }
  split.
  - intro Hne. rewrite H. destruct (deviceids s); [contradiction | reflexivity].
  - intro He. rewrite H, He. repeat split; vm_compute; reflexivity.
Qed.

Lemma delete_all_devices_targets_witness :
  let s := Server [] [Row "simdevice0001" PNone; Row "simdevice0002" (PStr "abc")]
                  [] [] 0 in
  (deviceids s <> [] ->
   hub_deletions (snd (delete_all_devices (fun _ => None) no_faults s)) =
     ["simdevice0001"; "simdevice0002"]) /\
  (deviceids s = [] ->
   hub_deletions (snd (delete_all_devices (fun _ => None) no_faults s)) =
     fallback_device_ids /\
   List.length fallback_device_ids = 1000 /\
   hd_error fallback_device_ids = Some "simdevice0001" /\
   nth_error fallback_device_ids 999 = Some "simdevice1000").
Proof.
  intro s. apply (delete_all_devices_targets (fun _ => None) no_faults s).
  reflexivity.
Defined.

(** C4 as stated fails: on an empty table the platform is asked to delete
    keys that were never in it. *)
Lemma delete_all_devices_empty_store_invents_keys :
  ~ (forall (hub : string -> option exn) (f : faults) (s : server),
       deviceids s = [] ->
       hub_deletions (snd (delete_all_devices hub f s)) = hub_deletions s).
Proof.
  intro H.
  specialize (H (fun _ => None) no_faults (Server [] [] [] [] 0) eq_refl).
  apply (f_equal (@List.length string)) in H.
  vm_compute in H. discriminate.
Qed.

(** [POST /delete_device/{id}] answers 200 or 500 and nothing else. *)
Lemma delete_device_status (hub : string -> option exn) (f : faults)
    (device_id : string) (s : server) :
  status (fst (respond 200 (delete_device hub f device_id) s)) = 200%Z \/
  status (fst (respond 200 (delete_device hub f device_id) s)) = 500%Z.
Proof.
  unfold respond, delete_device, bindM, try_except, delete_device_credential,
         raise, ret.
  destruct (check (hub device_id)); simpl; [| now right].
  destruct (execute_fault f 0); simpl; [now right |].
  destruct (List.length _ =? 0)%nat; simpl; [now right |].
  destruct (commit_fault f); simpl; [now right | now left].
Qed.

(** C9 on the code.  The credential of [simdevice9999] is deleted without
    error and the table has no such row: the 404 raised inside the [try] is
    caught by its own [except Exception], and the answer is 500. *)
Theorem delete_device_missing_row_answers_500 :
  respond 200 (delete_device (fun _ => None) no_faults "simdevice9999")
          (Server [] [Row "simdevice0001" PNone] [] [] 0) =
  (Response 500 (PDict [("detail", PStr "Database deletion error")]),
   Server [] [Row "simdevice0001" PNone] [] ["simdevice9999"] 0).
Proof. reflexivity. Qed.

(** ** The connection handler *)

(** C3 on the code.  A request against a pool with no free key: building
    the error envelope with the keyword [correlation_id] raises [TypeError]
    inside the [except HTTPException] clause; nothing is sent, the handler
    ends and the report that follows is never read. *)
Theorem request_on_exhausted_pool_sends_nothing
    (random_token : nat -> string) (clock : nat -> MessageEnvelope.clock)
    (cs key : option string) (ws : WebSocket) :
  websocket_endpoint (Environ None cs key) random_token clock
    (Handshake None None) ws "c1"
    [Turn (Ok (PDict [("type", PStr "request"); ("id", PStr "tok1")]))
          no_faults None;
     Turn (Ok (PDict [("type", PStr "report"); ("id", PStr "r1")]))
          no_faults None]
    (Server [] [Row "simdevice0001" (PStr "abc")] [] [] 0) =
  (Propagated
     (TypeError
        "MessageEnvelope.__init__() got an unexpected keyword argument 'correlation_id'"),
   Server [("c1", ws)] [Row "simdevice0001" (PStr "abc")] [Accepted ws] [] 1).
Proof. reflexivity. Qed.

(** The same on any other failure of the claim: the [except Exception]
    clause builds its envelope with the same keyword. *)
Lemma request_on_storage_failure_sends_nothing
    (random_token : nat -> string) (clock : nat -> MessageEnvelope.clock)
    (cs key : option string) (ws : WebSocket) :
  websocket_endpoint (Environ None cs key) random_token clock
    (Handshake None None) ws "c1"
    [Turn (Ok (PDict [("type", PStr "request"); ("id", PStr "tok1")]))
          (Faults (fun _ => Some (RuntimeError "connection lost")) None) None]
    (Server [] [Row "simdevice0001" PNone] [] [] 0) =
  (Propagated
     (TypeError
        "MessageEnvelope.__init__() got an unexpected keyword argument 'correlation_id'"),
   Server [("c1", ws)] [Row "simdevice0001" PNone] [Accepted ws] [] 1).
Proof. reflexivity. Qed.

(** C2 on the code.  The handler of connection [c1] ends on the error above
    and its key is still in the registry. *)
Theorem handler_exit_keeps_registry_entry
    (random_token : nat -> string) (clock : nat -> MessageEnvelope.clock)
    (cs key : option string) (ws : WebSocket) :
  let run :=
    websocket_endpoint (Environ None cs key) random_token clock
      (Handshake None None) ws "c1"
      [Turn (Ok (PDict [("type", PStr "request"); ("id", PStr "tok1")]))
            no_faults None]
      (Server [] [] [] [] 0) in
  terminated (fst run) = true /\
  Dict.lookup "c1" (active_connections (snd run)) = Some ws.
Proof. split; reflexivity. Qed.

(** A send that fails with something else than [WebSocketDisconnect] also
    ends the handler with the key in place: here the answer to a report on
    a channel that is already closed. *)
Lemma handler_send_error_keeps_registry_entry
    (random_token : nat -> string) (clock : nat -> MessageEnvelope.clock)
    (cs key : option string) (ws : WebSocket) :
  let run :=
    websocket_endpoint (Environ None cs key) random_token clock
      (Handshake None None) ws "c1"
      [Turn (Ok (PDict [("type", PStr "report"); ("id", PStr "r1")]))
            no_faults (Some (RuntimeError "Cannot call send once a close message has been sent."))]
      (Server [] [] [] [] 0) in
  fst run = Propagated (RuntimeError "Cannot call send once a close message has been sent.") /\
  Dict.lookup "c1" (active_connections (snd run)) = Some ws.
Proof. split; reflexivity. Qed.

(** The exit that does unregister: a disconnect seen by [receive_json]. *)
Lemma handler_disconnect_unregisters
    (random_token : nat -> string) (clock : nat -> MessageEnvelope.clock)
    (cs key : option string) (ws : WebSocket) :
  let run :=
    websocket_endpoint (Environ None cs key) random_token clock
      (Handshake None None) ws "c1"
      [Turn (Raise WebSocketDisconnect) no_faults None]
      (Server [] [] [] [] 0) in
  fst run = Disconnected /\
  Dict.lookup "c1" (active_connections (snd run)) = None.
Proof. split; reflexivity. Qed.

(** *** Which exits unregister

    The loop body never writes the registry, so the entry of a connection
    is there after the handler unless the [except WebSocketDisconnect]
    clause ran. *)

Create HintDb registry.

Lemma keeps_ret {A} (a : A) : keeps_registry (ret a).
Proof. intro s. reflexivity. Qed.

Lemma keeps_raise {A} (e : exn) : keeps_registry (@raise A e).
Proof. intro s. reflexivity. Qed.

Lemma keeps_lift {A} (r : result A) : keeps_registry (lift r).
Proof. intro s. reflexivity. Qed.

Lemma keeps_bindM {A B} (m : M A) (k : A -> M B) :
  keeps_registry m -> (forall a, keeps_registry (k a)) ->
  keeps_registry (bindM m k).
Proof.
  intros Hm Hk s. unfold bindM. specialize (Hm s).
  destruct (m s) as [[a | e] s1]; simpl in *; [| exact Hm].
  now rewrite Hk.
Qed.

Lemma keeps_try_except {A} (m : M A) (h : exn -> M A) :
  keeps_registry m -> (forall e, keeps_registry (h e)) ->
  keeps_registry (try_except m h).
Proof.
  intros Hm Hh s. unfold try_except. specialize (Hm s).
  destruct (m s) as [[a | e] s1]; simpl in *; [exact Hm |].
  now rewrite Hh.
Qed.

Lemma keeps_send_json (fault : option exn) (ws : WebSocket) (msg : pyval) :
  keeps_registry (send_json fault ws msg).
Proof. intro s. unfold send_json. now destruct fault. Qed.

Lemma keeps_generate_uuid (random_token : nat -> string) :
  keeps_registry (generate_uuid random_token).
Proof. intro s. reflexivity. Qed.

Lemma keeps_new_envelope (clock : nat -> MessageEnvelope.clock)
    (kw : dict pyval) : keeps_registry (new_envelope clock kw).
Proof. intro s. reflexivity. Qed.

Lemma keeps_claim (f : faults) (m : pyval) : keeps_registry (claim f m).
Proof.
  intro s. unfold claim. now destruct (assign_device_id f m (deviceids s)).
Qed.

#[local] Hint Resolve keeps_ret keeps_raise keeps_lift keeps_bindM
  keeps_try_except keeps_send_json keeps_generate_uuid keeps_new_envelope
  keeps_claim : registry.

Section Exits.

Variable env : environ.
Variable random_token : nat -> string.
Variable clock : nat -> MessageEnvelope.clock.

Lemma keeps_on_report (ws : WebSocket) (data : dict pyval) (t : turn) :
  keeps_registry (on_report random_token clock ws data t).
Proof. unfold on_report, send_envelope. auto 10 with registry. Qed.

Lemma keeps_on_request (ws : WebSocket) (data : dict pyval) (t : turn) :
  keeps_registry (on_request env random_token clock ws data t).
Proof.
  intro s. unfold on_request.
  pose proof (keeps_claim (storage t) (Dict.get "id" (PStr EmptyString) data) s)
    as Hc.
  destruct (claim (storage t) (Dict.get "id" (PStr EmptyString) data) s)
    as [[k | e] s1]; simpl in Hc; rewrite <- Hc; [| destruct e];
    match goal with
    | |- active_connections (snd (?m s1)) = _ =>
        enough (H : keeps_registry m) by apply H
    end;
    unfold send_envelope; auto 12 with registry.
Qed.

Lemma keeps_on_message (ws : WebSocket) (t : turn) (received : pyval) :
  keeps_registry (on_message env random_token clock ws t received).
Proof.
  pose proof keeps_on_report. pose proof keeps_on_request.
  unfold on_message. destruct received; auto with registry.
  apply keeps_bindM.
  - destruct (type_is "request" d); auto with registry.
  - intros []; auto with registry.
    destruct (type_is "report" d); auto with registry.
Qed.

(** After any script of turns, the registry is the one the loop started
    with, less the handler's key exactly when the handler saw a
    [WebSocketDisconnect]. *)
Lemma session_loop_registry (ws : WebSocket) (uuid : string)
    (script : list turn) :
  forall s,
    active_connections
      (snd (session_loop env random_token clock ws uuid script s)) =
    match fst (session_loop env random_token clock ws uuid script s) with
    | Disconnected => Dict.pop uuid (active_connections s)
    | _ => active_connections s
    end.
Proof.
  induction script as [| t script IH]; intro s; simpl; [reflexivity |].
  assert (Hk : keeps_registry
                 (bindM (lift (incoming t))
                        (fun received =>
                           on_message env random_token clock ws t received))).
  { apply keeps_bindM; [apply keeps_lift | intro; apply keeps_on_message]. }
  specialize (Hk s).
  destruct (bindM (lift (incoming t)) _ s) as [[f | e] s1]; simpl in Hk.
  - destruct f; try (rewrite IH, Hk; reflexivity). simpl. exact Hk.
  - destruct e; simpl; now rewrite Hk.
Qed.

End Exits.

Lemma lookup_set_same {V} (k : string) (v : V) (d : dict V) :
  Dict.lookup k (Dict.set k v d) = Some v.
Proof.
  induction d as [| [k0 v0] d IH]; simpl.
  - now rewrite String.eqb_refl.
  - destruct (k =? k0) eqn:E; simpl; [now rewrite String.eqb_refl |].
    now rewrite E.
Qed.

(** With no bearer token configured: a handler that ends on a disconnect
    leaves no entry for its key, and a handler in any other state, ended or
    not, leaves the entry that [connect] made. *)
Lemma websocket_endpoint_registry (cs key : option string)
    (random_token : nat -> string) (clock : nat -> MessageEnvelope.clock)
    (h : handshake) (ws : WebSocket) (uuid : string) (script : list turn)
    (s : server) :
  NoDup (Dict.keys (active_connections s)) ->
  Dict.lookup uuid
    (active_connections
       (snd (websocket_endpoint (Environ None cs key) random_token clock h ws
                                uuid script s))) =
  match fst (websocket_endpoint (Environ None cs key) random_token clock h ws
                                uuid script s) with
  | Disconnected => None
  | _ => Some ws
  end.
Proof.
  intro Hnd. unfold websocket_endpoint. simpl.
  rewrite session_loop_registry. simpl.
  destruct (fst (session_loop _ _ _ _ _ _ _));
    try apply lookup_set_same.
  apply DictFacts.lookup_pop_same. now apply DictFacts.set_NoDup.
Qed.

(** * Further properties of the code *)

(** ** Envelopes: defaults and errors *)

Lemma unexpected_keyword_none (kw : dict pyval) :
  MessageEnvelope.unexpected_keyword kw = None <->
  forallb MessageEnvelope.is_parameter (Dict.keys kw) = true.
Proof.
  induction kw as [| [k v] kw IH]; simpl; [tauto |].
  destruct (MessageEnvelope.is_parameter k); simpl; [exact IH |].
  split; discriminate.
Qed.

(** The constructor accepts a call exactly when every keyword is one of its
    nine parameters and [action] is among them; any other call raises. *)
Theorem init_accepts_iff (c : MessageEnvelope.clock) (kw : dict pyval) :
  (exists e, MessageEnvelope.init c kw = Ok e) <->
  forallb MessageEnvelope.is_parameter (Dict.keys kw) = true /\
  Dict.contains "action" kw = true.
Proof.
  unfold MessageEnvelope.init, Dict.contains.
  destruct (MessageEnvelope.unexpected_keyword kw) as [k |] eqn:E.
  - split.
    + intros [e H]. discriminate.
    + intros [H _]. apply unexpected_keyword_none in H. congruence.
  - apply unexpected_keyword_none in E.
    destruct (Dict.lookup "action" kw) as [a |].
    + split; [now split | eauto].
    + split; [intros [e H]; discriminate | intros [_ H]; discriminate].
Qed.

(** An envelope out of the constructor has a truthy id, correlation id and
    timestamp, and its payload and meta are never [None], whatever the
    caller passed. *)
Theorem init_populated (c : MessageEnvelope.clock) (kw : dict pyval)
    (e : MessageEnvelope.t) :
  MessageEnvelope.uuid4 c <> EmptyString ->
  MessageEnvelope.iso_now c <> EmptyString ->
  MessageEnvelope.init c kw = Ok e ->
  truthy (MessageEnvelope.id e) = true /\
  truthy (MessageEnvelope.correlationId e) = true /\
  truthy (MessageEnvelope.ts e) = true /\
  MessageEnvelope.payload e <> PNone /\
  MessageEnvelope.meta e <> PNone.
Proof.
  intros Hu Hn. unfold MessageEnvelope.init.
  destruct (MessageEnvelope.unexpected_keyword kw); [discriminate |].
  destruct (Dict.lookup "action" kw); [| discriminate].
  intros [= <-]. simpl.
  assert (Hnone : forall q, py_or q (PDict []) <> PNone).
  { intro q. unfold py_or. destruct (truthy q) eqn:E; [| discriminate].
    intros ->. discriminate. }
  repeat split; auto using truthy_py_or, truthy_PStr.
Qed.

Lemma init_populated_witness :
  let c := MessageEnvelope.Clock "6f1c" "2025-11-28T05:15:37Z" in
  let e := MessageEnvelope.Build (PInt 1) (PStr "command") (PStr "6f1c")
             (PStr "6f1c") (PStr "2025-11-28T05:15:37Z") (PStr "device.restart")
             PNone (PDict []) (PDict []) in
  truthy (MessageEnvelope.id e) = true /\
  truthy (MessageEnvelope.correlationId e) = true /\
  truthy (MessageEnvelope.ts e) = true /\
  MessageEnvelope.payload e <> PNone /\
  MessageEnvelope.meta e <> PNone.
Proof.
  intros c e.
  apply (init_populated c [("action", PStr "device.restart");
                           ("id", PStr EmptyString); ("payload", PNone)] e).
  - discriminate.
  - discriminate.
  - reflexivity.
Defined.

(** [from_dict] raises on no dict at all, whatever keys it has, and a dict
    without [correlationId] (or with a falsy one) gives an envelope whose
    correlation id is its id. *)
Theorem from_dict_total_and_correlation (c : MessageEnvelope.clock)
    (data : dict pyval) :
  exists e,
    MessageEnvelope.from_dict c data = Ok e /\
    (truthy (get_none "correlationId" data) = false ->
     MessageEnvelope.correlationId e = MessageEnvelope.id e) /\
    (truthy (get_none "correlationId" data) = true ->
     MessageEnvelope.correlationId e = get_none "correlationId" data).
Proof.
  unfold MessageEnvelope.from_dict.
  generalize (get_none "correlationId" data) as corr.
  generalize (get_none "id" data) as given_id.
  generalize (get_none "ts" data), (get_none "meta" data),
    (get_none "status" data), (get_none "payload" data),
    (Dict.get "version" (PInt 1) data),
    (Dict.get "type" (PStr "command") data),
    (Dict.get "action" (PStr EmptyString) data).
  intros. eexists. split; [reflexivity |]. cbn.
  split; intro H; unfold py_or at 1; now rewrite H.
Qed.

(** The constructor itself: a call that gives no truthy [correlationId]
    gets the id of the envelope as correlation id. *)
Theorem init_correlation_defaults_to_id (c : MessageEnvelope.clock)
    (kw : dict pyval) (e : MessageEnvelope.t) :
  MessageEnvelope.init c kw = Ok e ->
  truthy (get_none "correlationId" kw) = false ->
  MessageEnvelope.correlationId e = MessageEnvelope.id e.
Proof.
  unfold MessageEnvelope.init.
  destruct (MessageEnvelope.unexpected_keyword kw); [discriminate |].
  destruct (Dict.lookup "action" kw); [| discriminate].
  intros [= <-] H. simpl. unfold py_or at 1. now rewrite H.
Qed.

Lemma init_correlation_defaults_to_id_witness :
  let c := MessageEnvelope.Clock "6f1c" "2025-11-28T05:15:37Z" in
  let e := MessageEnvelope.Build (PInt 1) (PStr "event") (PStr "m1")
             (PStr "m1") (PStr "2025-11-28T05:15:37Z") (PStr "a")
             PNone (PDict []) (PDict []) in
  MessageEnvelope.correlationId e = MessageEnvelope.id e.
Proof.
  intros c e.
  apply (init_correlation_defaults_to_id c
           [("action", PStr "a"); ("type", PStr "event"); ("id", PStr "m1");
            ("correlationId", PStr EmptyString)] e); reflexivity.
Defined.

(** ** The pool: what a claim never does *)

(** A claim never creates or deletes a record: the keys of the table, in
    order, are the same after the call, whether it answers or raises. *)
Theorem assign_device_id_keeps_keys (f : faults) (message_id : pyval)
    (db : table) :
  map device_id (snd (assign_device_id f message_id db)) = map device_id db.
Proof.
  unfold assign_device_id.
  destruct (execute_fault f 0); [reflexivity |].
  destruct (select_first_unassigned db); [| reflexivity].
  destruct (execute_fault f 1); [reflexivity |].
  destruct (commit_fault f); [reflexivity |].
  apply update_device_uuid_keys.
Qed.

Lemma unique_key (db : table) (r r' : DeviceId) :
  NoDup (map device_id db) -> In r db -> In r' db ->
  device_id r = device_id r' -> r = r'.
Proof.
  induction db as [| r0 db IH]; simpl; intros Hnd Hr Hr' E; [contradiction |].
  inversion Hnd as [| ? ? Hfresh Hnd']; subst.
  destruct Hr as [-> | Hr], Hr' as [-> | Hr']; auto.
  - exfalso. apply Hfresh. rewrite E. now apply in_map.
  - exfalso. apply Hfresh. rewrite <- E. now apply in_map.
Qed.

(** With unique keys, a claim leaves every row that was already bound as
    it was: no identity changes hands. *)
Theorem assign_device_id_keeps_bound_rows (f : faults) (message_id : pyval)
    (db : table) (r : DeviceId) :
  NoDup (map device_id db) ->
  In r db -> unassigned r = false ->
  In r (snd (assign_device_id f message_id db)).
Proof.
  intros Hnd Hr Hb. unfold assign_device_id.
  destruct (execute_fault f 0); [exact Hr |].
  destruct (select_first_unassigned db) as [k |] eqn:E; [| exact Hr].
  destruct (execute_fault f 1); [exact Hr |].
  destruct (commit_fault f); [exact Hr |]. simpl.
  apply select_first_unassigned_spec in E. destruct E as [Hin _].
  apply in_map_iff in Hin. destruct Hin as (r0 & Hk & Hf).
  apply filter_In in Hf. destruct Hf as [Hr0 Hu0].
  unfold update_device_uuid. apply in_map_iff. exists r. split; [| exact Hr].
  destruct (device_id r =? k) eqn:Ek; [| reflexivity].
  apply String.eqb_eq in Ek. exfalso.
  assert (r = r0) by (apply (unique_key db); congruence).
  congruence.
Qed.

Lemma assign_device_id_keeps_bound_rows_witness :
  In (Row "simdevice0001" (PStr "abc"))
     (snd (assign_device_id no_faults (PStr "def")
             [Row "simdevice0001" (PStr "abc"); Row "simdevice0002" PNone])).
Proof.
  apply assign_device_id_keeps_bound_rows.
  - simpl. repeat constructor; simpl; intuition discriminate.
  - now left.
  - reflexivity.
Defined.

(** The same table with two rows under one key: the claim of the free row
    rebinds the bound one as well, the UPDATE being by key. *)
Lemma assign_device_id_rebinds_duplicate_key :
  snd (assign_device_id no_faults (PStr "def")
         [Row "simdevice0001" (PStr "abc"); Row "simdevice0001" PNone]) =
  [Row "simdevice0001" (PStr "def"); Row "simdevice0001" (PStr "def")].
Proof. reflexivity. Qed.

Lemma update_device_uuid_in (m : pyval) (k : string) (db : table) (r' : DeviceId) :
  In r' (update_device_uuid m k db) ->
  r' = Row k m \/ (In r' db /\ device_id r' <> k).
Proof.
  unfold update_device_uuid. intro H. apply in_map_iff in H.
  destruct H as (r & <- & Hr).
  destruct (device_id r =? k) eqn:E.
  - left. apply String.eqb_eq in E. now rewrite E.
  - right. apply String.eqb_neq in E. now split.
Qed.

(** A request whose id is JSON [null] binds NULL: the key it is answered
    stays unassigned and the next claim is answered the same key. *)
Theorem assign_device_id_null_id_repeats (token : pyval) (db db' : table)
    (k : string) :
  assign_device_id no_faults PNone db = (Ok k, db') ->
  exists db'', assign_device_id no_faults token db' = (Ok k, db'').
Proof.
  rewrite !assign_device_id_no_faults.
  destruct (select_first_unassigned db) as [k0 |] eqn:E; [| discriminate].
  intros [= -> <-].
  destruct (select_first_unassigned_spec db k E) as [Hin Hmin].
  apply in_map_iff in Hin. destruct Hin as (r0 & Hk & Hf).
  apply filter_In in Hf. destruct Hf as [Hr0 Hu0].
  assert (Hfree : In (Row k PNone) (update_device_uuid PNone k db)).
  { unfold update_device_uuid. apply in_map_iff. exists r0.
    split; [| exact Hr0]. now rewrite Hk, String.eqb_refl. }
  destruct (select_first_unassigned_some (update_device_uuid PNone k db))
    as [k' Hk'].
  { intro Hnil.
    assert (H : In (Row k PNone) (filter unassigned (update_device_uuid PNone k db)))
      by (apply filter_In; now split).
    now rewrite Hnil in H. }
  rewrite Hk'.
  destruct (select_first_unassigned_spec _ k' Hk') as [Hin' Hmin'].
  assert (k' = k); [| subst k'; eauto].
  apply KeyOrder.le_antisym.
  - apply (Hmin' (Row k PNone) Hfree eq_refl).
  - apply in_map_iff in Hin'. destruct Hin' as (r' & Hk'' & Hf').
    apply filter_In in Hf'. destruct Hf' as [Hr' Hu'].
    apply update_device_uuid_in in Hr'. destruct Hr' as [-> | [Hr' _]].
    + simpl in Hk''. subst k'. apply KeyOrder.le_refl.
    + subst k'. now apply Hmin.
Qed.

Lemma assign_device_id_null_id_repeats_witness :
  exists db'',
    assign_device_id no_faults (PStr "tok2")
      [Row "simdevice0002" PNone; Row "simdevice0001" PNone] =
    (Ok "simdevice0001", db'').
Proof.
  apply (assign_device_id_null_id_repeats (PStr "tok2")
           [Row "simdevice0002" PNone; Row "simdevice0001" PNone]).
  reflexivity.
Defined.

(** ** [clear_mappings] *)

Lemma clear_device_uuid_keys (db : table) :
  map device_id (clear_device_uuid db) = map device_id db.
Proof. unfold clear_device_uuid. rewrite map_map. reflexivity. Qed.

Lemma clear_device_uuid_unassigned (db : table) :
  filter unassigned (clear_device_uuid db) = clear_device_uuid db.
Proof. induction db as [| r db IH]; simpl; [reflexivity | now rewrite IH]. Qed.

(** [clear_mappings] keeps the keys whatever happens; when it answers,
    every row is unassigned; when the storage layer fails it raises the
    500 error and the table is the one it was. *)
Theorem clear_mappings_outcomes (f : faults) (s : server) :
  map device_id (deviceids (snd (clear_mappings f s))) =
    map device_id (deviceids s) /\
  (forall c, fst (clear_mappings f s) = Ok c ->
     c = PDict [("status", PStr "all mappings cleared")] /\
     forall r, In r (deviceids (snd (clear_mappings f s))) ->
               unassigned r = true) /\
  (forall e, fst (clear_mappings f s) = Raise e ->
     e = HTTPException 500 "Database update error" /\
     snd (clear_mappings f s) = s).
Proof.
  unfold clear_mappings, bindM, try_except, raise, ret.
  destruct (execute_fault f 0); simpl.
  - repeat split; try discriminate; congruence.
  - destruct (commit_fault f); simpl.
    + repeat split; try discriminate; congruence.
    + split; [apply clear_device_uuid_keys |].
      split; [| discriminate].
      intros c [= <-]. split; [reflexivity |].
      intros r Hr. rewrite <- clear_device_uuid_unassigned in Hr.
      now apply filter_In in Hr.
Qed.

(** After [clear_mappings], the next claim is answered the lowest key of
    the whole table, bound before or not. *)
Theorem claim_after_clear_mappings (token : string) (s : server) :
  deviceids s <> [] ->
  exists k db',
    assign_device_id no_faults (PStr token)
      (deviceids (snd (clear_mappings no_faults s))) = (Ok k, db') /\
    In k (map device_id (deviceids s)) /\
    forall r, In r (deviceids s) -> str_le k (device_id r) = true.
Proof.
  intro Hne. simpl.
  destruct (select_first_unassigned_some (clear_device_uuid (deviceids s)))
    as [k Hk].
  { rewrite clear_device_uuid_unassigned.
    destruct (deviceids s); [contradiction | discriminate]. }
  rewrite assign_device_id_no_faults, Hk.
  apply select_first_unassigned_spec in Hk. destruct Hk as [Hin Hmin].
  rewrite clear_device_uuid_unassigned, clear_device_uuid_keys in Hin.
  exists k, (update_device_uuid (PStr token) k (clear_device_uuid (deviceids s))).
  repeat split; [exact Hin |].
  intros r Hr.
  apply (Hmin (Row (device_id r) PNone)); [| reflexivity].
  unfold clear_device_uuid. apply in_map_iff. now exists r.
Qed.

Lemma claim_after_clear_mappings_witness :
  let s := Server [] [Row "simdevice0002" PNone; Row "simdevice0001" (PStr "abc")]
                  [] [] 0 in
  exists k db',
    assign_device_id no_faults (PStr "def")
      (deviceids (snd (clear_mappings no_faults s))) = (Ok k, db') /\
    In k (map device_id (deviceids s)) /\
    forall r, In r (deviceids s) -> str_le k (device_id r) = true.
Proof.
  intro s. apply (claim_after_clear_mappings "def" s). discriminate.
Defined.

(** ** Device keys *)

#[local] Set Warnings "-abstract-large-number".

Lemma to_uint_not_nil (n : nat) : Nat.to_uint n <> Decimal.Nil.
Proof.
  intro H. pose proof (Unsigned.of_to n) as E. rewrite H in E.
  simpl in E. subst n. discriminate.
Qed.

Lemma uint_of_string_zeros (k : nat) (s : string) :
  NilEmpty.uint_of_string
    (string_of_list_ascii (repeat "0"%char k) ++ s) =
  option_map (Nat.iter k Decimal.D0) (NilEmpty.uint_of_string s).
Proof.
  induction k as [| k IH]; simpl.
  - now destruct (NilEmpty.uint_of_string s).
  - rewrite IH. now destruct (NilEmpty.uint_of_string s).
Qed.

Lemma of_uint_zeros (k : nat) (d : Decimal.uint) :
  Nat.of_uint (Nat.iter k Decimal.D0 d) = Nat.of_uint d.
Proof. induction k as [| k IH]; simpl; [reflexivity | exact IH]. Qed.

(** Reading back the digits of [f"{n:04d}"] gives [n], for every [n]:
    the padding adds zeros in front and nothing is cut. *)
Theorem fmt_04d_round_trip (n : nat) : int_of_digits (fmt_04d n) = Some n.
Proof.
  unfold int_of_digits, fmt_04d. rewrite uint_of_string_zeros.
  assert (E : NilZero.string_of_uint (Nat.to_uint n) =
              NilEmpty.string_of_uint (Nat.to_uint n)).
  { unfold NilZero.string_of_uint. pose proof (to_uint_not_nil n).
    now destruct (Nat.to_uint n). }
  rewrite E, NilEmpty.usu. simpl.
  now rewrite of_uint_zeros, Unsigned.of_to.
Qed.

(** Two numbers never share a device key. *)
Lemma device_key_injective (i j : nat) :
  "simdevice" ++ fmt_04d i = "simdevice" ++ fmt_04d j -> i = j.
Proof.
  intro H. simpl in H. injection H as H.
  pose proof (fmt_04d_round_trip i) as Hi. rewrite H in Hi.
  rewrite fmt_04d_round_trip in Hi. now injection Hi.
Qed.

Lemma device_keys_adjacent :
  forallb (fun i => str_le ("simdevice" ++ fmt_04d i)
                           ("simdevice" ++ fmt_04d (S i)))
          (seq 0 9999) = true.
Proof. vm_compute. reflexivity. Qed.

Lemma device_key_le_up (i d : nat) :
  i + d <= 9999 ->
  str_le ("simdevice" ++ fmt_04d i) ("simdevice" ++ fmt_04d (i + d)) = true.
Proof.
  induction d as [| d IH]; intro H.
  - rewrite Nat.add_0_r. apply KeyOrder.le_refl.
  - eapply KeyOrder.le_trans; [apply IH; lia |].
    rewrite Nat.add_succ_r.
    pose proof device_keys_adjacent as Hadj.
    rewrite forallb_forall in Hadj. apply (Hadj (i + d)).
    apply in_seq. lia.
Qed.

(** Up to 9999 the lexicographic order of the keys is the order of their
    numbers, so the lowest key is the lowest number; with five digits it
    is not: [simdevice10000] sorts before [simdevice9999]. *)
Theorem device_key_order (i j : nat) :
  i <= 9999 -> j <= 9999 ->
  (str_le ("simdevice" ++ fmt_04d i) ("simdevice" ++ fmt_04d j) = true
   <-> i <= j) /\
  str_le ("simdevice" ++ fmt_04d 10000) ("simdevice" ++ fmt_04d 9999) = true.
Proof.
  intros Hi Hj. split; [| vm_compute; reflexivity].
  split; intro H.
  - destruct (Nat.le_gt_cases i j) as [Hle | Hgt]; [exact Hle |].
    assert (Hji : str_le ("simdevice" ++ fmt_04d j) ("simdevice" ++ fmt_04d i) = true).
    { replace i with (j + (i - j)) by lia. apply device_key_le_up. lia. }
    pose proof (device_key_injective _ _ (KeyOrder.le_antisym _ _ H Hji)). lia.
  - replace j with (i + (j - i)) by lia. apply device_key_le_up. lia.
Qed.

Lemma device_key_order_witness :
  (str_le ("simdevice" ++ fmt_04d 9) ("simdevice" ++ fmt_04d 10) = true
   <-> 9 <= 10) /\
  str_le ("simdevice" ++ fmt_04d 10000) ("simdevice" ++ fmt_04d 9999) = true.
Proof. apply (device_key_order 9 10); apply Nat.leb_le; reflexivity. Defined.

(** ** [generate_devices] *)

Section ProvisioningFacts.

Variable create : string -> result pyval.
Variable flush_fault : nat -> option exn.
Variable commit_fault_at : nat -> option exn.

Local Abbreviation new_row :=
  (fun i : nat => Row ("simdevice" ++ fmt_04d (i + 1)) PNone).

Lemma with_deviceids_app (s : server) (l1 l2 : table) :
  with_deviceids (deviceids (with_deviceids (deviceids s ++ l1)%list s) ++ l2)%list
                 (with_deviceids (deviceids s ++ l1)%list s) =
  with_deviceids (deviceids s ++ l1 ++ l2)%list s.
Proof. unfold with_deviceids. simpl. now rewrite <- app_assoc. Qed.

Lemma generate_devices_loop_prefix (count : nat) :
  forall (i : nat) (ids : list pyval) (s : server),
  exists m,
    m <= count /\
    snd (generate_devices_loop create flush_fault commit_fault_at count i ids s)
      = with_deviceids (deviceids s ++ map new_row (seq i m))%list s /\
    (forall l,
       fst (generate_devices_loop create flush_fault commit_fault_at count i ids s)
         = Ok l -> m = count) /\
    (forall e,
       fst (generate_devices_loop create flush_fault commit_fault_at count i ids s)
         = Raise e -> m < count /\ exists d, e = HTTPException 500 d).
Proof.
  assert (Hstay : forall s : server, s = with_deviceids (deviceids s ++ [])%list s).
  { intros [x1 x2 x3 x4 x5]. unfold with_deviceids. simpl.
    now rewrite app_nil_r. }
  induction count as [| count IH]; intros i ids s.
  - exists 0. simpl. split; [lia |]. split; [apply Hstay |].
    split; [reflexivity | discriminate].
  - cbn [generate_devices_loop]. unfold bindM, try_except, lift, raise.
    destruct (create ("simdevice" ++ fmt_04d (i + 1))) as [g | e0].
    2:{ exists 0. simpl. split; [lia |]. split; [apply Hstay |].
        split; [discriminate |]. intros e [= <-]. split; [lia | eauto]. }
    destruct (flush_fault i) as [e1 |]; simpl.
    { exists 0. simpl. split; [lia |]. split; [apply Hstay |].
        split; [discriminate |]. intros e [= <-]. split; [lia | eauto]. }
    destruct (commit_fault_at i) as [e2 |]; simpl.
    { exists 0. simpl. split; [lia |]. split; [apply Hstay |].
        split; [discriminate |]. intros e [= <-]. split; [lia | eauto]. }
    destruct (IH (S i) (ids ++ [g])%list
                 (with_deviceids (deviceids s ++ [new_row i])%list s))
      as (m & Hm & Hs & Hok & Herr).
    exists (S m). split; [lia |]. split; [| split].
    + etransitivity; [exact Hs |]. rewrite with_deviceids_app. reflexivity.
    + intros l Hl. f_equal. now apply (Hok l).
    + intros e He. destruct (Herr e He) as [Hlt Hd]. split; [lia | exact Hd].
Qed.

(** Whatever the device platform and the storage layer do, the table after
    [generate_devices] is the old one followed by the keys [simdevice0001],
    [simdevice0002], ... of the passes that were committed: all of them
    when the call answers, fewer when it raises (always the 500 error), and
    the rows committed before the failure stay. *)
Theorem generate_devices_commits_a_prefix (number_of_devices : Z) (s : server) :
  exists m,
    m <= Z.to_nat number_of_devices /\
    snd (generate_devices create flush_fault commit_fault_at number_of_devices s)
      = with_deviceids
          (deviceids s ++
           map (fun i => Row ("simdevice" ++ fmt_04d (i + 1)) PNone) (seq 0 m))%list
          s /\
    (forall c,
       fst (generate_devices create flush_fault commit_fault_at number_of_devices s)
         = Ok c -> m = Z.to_nat number_of_devices) /\
    (forall e,
       fst (generate_devices create flush_fault commit_fault_at number_of_devices s)
         = Raise e ->
       m < Z.to_nat number_of_devices /\ exists d, e = HTTPException 500 d).
Proof.
  destruct (generate_devices_loop_prefix (Z.to_nat number_of_devices) 0 [] s)
    as (m & Hm & Hs & Hok & Herr).
  exists m. unfold generate_devices, bindM, ret.
  destruct (generate_devices_loop create flush_fault commit_fault_at
              (Z.to_nat number_of_devices) 0 [] s) as [[l | e] s'];
    simpl in *.
  - split; [exact Hm |]. split; [exact Hs |].
    split; [intros c _; now apply (Hok l) | discriminate].
  - split; [exact Hm |]. split; [exact Hs |].
    split; [discriminate | intros e' [= <-]; now apply (Herr e)].
Qed.

Lemma generate_devices_loop_ok (g : nat -> pyval) (count : nat) :
  forall (i : nat) (ids : list pyval) (s : server),
    (forall j, i <= j < i + count ->
       create ("simdevice" ++ fmt_04d (j + 1)) = Ok (g j) /\
       flush_fault j = None /\ commit_fault_at j = None) ->
    fst (generate_devices_loop create flush_fault commit_fault_at count i ids s)
      = Ok (ids ++ map g (seq i count))%list.
Proof.
  induction count as [| count IH]; intros i ids s H.
  - simpl. now rewrite app_nil_r.
  - cbn [generate_devices_loop]. unfold bindM, try_except, lift, raise.
    destruct (H i) as (Hc & Hf & Hm); [lia |].
    rewrite Hc, Hf. simpl. rewrite Hm.
    rewrite IH by (intros j Hj; apply H; lia).
    simpl. now rewrite <- app_assoc.
Qed.

(** When the platform issues every credential and the storage layer works,
    the call answers the list of what the platform returned, in order. *)
Theorem generate_devices_answer (g : nat -> pyval) (number_of_devices : Z)
    (s : server) :
  (forall j, j < Z.to_nat number_of_devices ->
     create ("simdevice" ++ fmt_04d (j + 1)) = Ok (g j) /\
     flush_fault j = None /\ commit_fault_at j = None) ->
  fst (generate_devices create flush_fault commit_fault_at number_of_devices s) =
  Ok (PDict [("generated_device_ids",
              PList (map g (seq 0 (Z.to_nat number_of_devices))))]).
Proof.
  intro H. unfold generate_devices, bindM, ret.
  pose proof (generate_devices_loop_ok g (Z.to_nat number_of_devices) 0 [] s) as E.
  destruct (generate_devices_loop create flush_fault commit_fault_at
              (Z.to_nat number_of_devices) 0 [] s) as [r s'].
  simpl in *. rewrite E; [reflexivity |].
  intros j Hj. apply H. lia.
Qed.

End ProvisioningFacts.

Lemma generate_devices_answer_witness :
  fst (generate_devices (fun k => Ok (PStr k)) (fun _ => None) (fun _ => None) 2
         (Server [] [] [] [] 0)) =
  Ok (PDict [("generated_device_ids",
              PList [PStr "simdevice0001"; PStr "simdevice0002"])]).
Proof.
  apply (generate_devices_answer (fun k => Ok (PStr k)) (fun _ => None)
           (fun _ => None)
           (fun j => PStr ("simdevice" ++ fmt_04d (j + 1))) 2
           (Server [] [] [] [] 0)).
  intros j Hj. repeat split.
Defined.

(** The keys of one call of [generate_devices] are pairwise distinct, for
    any number of devices. *)
Theorem generated_keys_distinct (m : nat) :
  NoDup (map (fun i => "simdevice" ++ fmt_04d (i + 1)) (seq 0 m)).
Proof.
  apply Finite.Injective_map_NoDup; [| apply seq_NoDup].
  intros i j H. apply device_key_injective in H. lia.
Qed.

(** ** Deleting identities: the other paths *)



(** When the platform refuses the deletion, [delete_device] raises its 500
    error without a statement to the storage layer: the table keeps the
    record, whatever the storage layer would have done. *)
Theorem delete_device_platform_failure (hub : string -> option exn)
    (f : faults) (device_id0 : string) (s : server) (e : exn) :
  hub device_id0 = Some e ->
  delete_device hub f device_id0 s =
  (Raise (HTTPException 500 "Azure IoT Hub deletion error"),
   note_hub_deletion device_id0 s).
Proof.
  intro H.
  unfold delete_device, bindM, try_except, delete_device_credential, raise.
  now rewrite H.
Qed.

Lemma delete_device_platform_failure_witness :
  delete_device (fun _ => Some (RuntimeError "not found")) no_faults
    "simdevice0001" (Server [] [Row "simdevice0001" PNone] [] [] 0) =
  (Raise (HTTPException 500 "Azure IoT Hub deletion error"),
   Server [] [Row "simdevice0001" PNone] [] ["simdevice0001"] 0).
Proof.
  apply (delete_device_platform_failure (fun _ => Some (RuntimeError "not found"))
           no_faults "simdevice0001"
           (Server [] [Row "simdevice0001" PNone] [] [] 0)
           (RuntimeError "not found")).
  reflexivity.
Defined.

(** [delete_all_devices] with a storage layer that works answers and
    leaves the table empty whichever deletions the platform refuses. *)
Theorem delete_all_devices_ignores_platform_failures
    (hub : string -> option exn) (s : server) :
  fst (delete_all_devices hub no_faults s) =
    Ok (PDict [("status", PStr "all devices deleted")]) /\
  deviceids (snd (delete_all_devices hub no_faults s)) = [].
Proof.
  unfold delete_all_devices. cbn [execute_fault no_faults]. unfold bindM.
  rewrite delete_credentials_log. split; reflexivity.
Qed.

(** When the DELETE or its commit fails, [delete_all_devices] raises the
    500 error and the table is the one it was, yet the platform has been
    asked to delete every credential by then. *)
Theorem delete_all_devices_storage_failure (hub : string -> option exn)
    (f : faults) (s : server) :
  execute_fault f 0 = None ->
  execute_fault f 1 <> None \/ commit_fault f <> None ->
  fst (delete_all_devices hub f s) =
    Raise (HTTPException 500 "Database deletion error") /\
  deviceids (snd (delete_all_devices hub f s)) = deviceids s /\
  hub_deletions (snd (delete_all_devices hub f s)) =
    (hub_deletions s ++
     match deviceids s with
     | [] => fallback_device_ids
     | _ => map device_id (deviceids s)
     end)%list.
Proof.
  intros H0 Hf. unfold delete_all_devices. rewrite H0. unfold bindM.
  rewrite delete_credentials_log.
  unfold try_except, raise, ret. simpl.
  destruct (execute_fault f 1); [repeat split |].
  destruct (commit_fault f); [repeat split |].
  destruct Hf as [Hf | Hf]; contradiction.
Qed.

Lemma delete_all_devices_storage_failure_witness :
  let f := Faults (fun _ => None) (Some (RuntimeError "commit failed")) in
  let s := Server [] [Row "simdevice0001" PNone] [] [] 0 in
  fst (delete_all_devices (fun _ => None) f s) =
    Raise (HTTPException 500 "Database deletion error") /\
  deviceids (snd (delete_all_devices (fun _ => None) f s)) = deviceids s /\
  hub_deletions (snd (delete_all_devices (fun _ => None) f s)) =
    ["simdevice0001"].
Proof.
  intros f s. apply (delete_all_devices_storage_failure (fun _ => None) f s).
  - reflexivity.
  - right. discriminate.
Defined.

(** ** The registry: connect, disconnect, targeted send *)

Lemma lookup_set_other {V} (k k' : string) (v : V) (d : dict V) :
  k' <> k -> Dict.lookup k' (Dict.set k v d) = Dict.lookup k' d.
Proof.
  intro Hne. induction d as [| [k0 v0] d IH]; simpl.
  - apply String.eqb_neq in Hne. now rewrite Hne.
  - destruct (k =? k0) eqn:E; simpl.
    + apply String.eqb_eq in E. subst k0.
      apply String.eqb_neq in Hne. now rewrite Hne.
    + now rewrite IH.
Qed.

Lemma length_set {V} (k : string) (v : V) (d : dict V) :
  List.length (Dict.set k v d) =
  if Dict.contains k d then List.length d else S (List.length d).
Proof.
  unfold Dict.contains. induction d as [| [k0 v0] d IH]; simpl; [reflexivity |].
  destruct (k =? k0); simpl; [reflexivity |].
  rewrite IH. now destruct (Dict.lookup k d).
Qed.

(** [connect] under a key: the key maps to the new socket and to nothing
    else, the other entries are as they were, a key already there is
    replaced in place (the registry does not grow) and the socket it had is
    sent no close: the channel only sees the new socket accepted. *)
Theorem connect_installs_or_replaces (uuid : string) (ws : WebSocket)
    (s : server) :
  let s' := snd (ConnectionManager.connect uuid ws s) in
  Dict.lookup uuid (active_connections s') = Some ws /\
  (forall k, k <> uuid ->
     Dict.lookup k (active_connections s') = Dict.lookup k (active_connections s)) /\
  List.length (get_clients s') =
    (if Dict.contains uuid (active_connections s)
     then List.length (get_clients s) else S (List.length (get_clients s))) /\
  (NoDup (get_clients s) -> NoDup (get_clients s')) /\
  wire s' = (wire s ++ [Accepted ws])%list.
Proof.
  simpl. unfold get_clients, Dict.keys. simpl. rewrite !length_map.
  repeat split.
  - apply lookup_set_same.
  - intros k Hk. now apply lookup_set_other.
  - apply length_set.
  - apply DictFacts.set_NoDup.
Qed.

(** [disconnect] removes the key and only the key; on a key the registry
    does not hold it changes nothing. *)
Theorem disconnect_removes_only_the_key (uuid : string) (s : server) :
  NoDup (get_clients s) ->
  let s' := snd (ConnectionManager.disconnect uuid s) in
  Dict.lookup uuid (active_connections s') = None /\
  (forall k, k <> uuid ->
     Dict.lookup k (active_connections s') = Dict.lookup k (active_connections s)) /\
  NoDup (get_clients s') /\
  (Dict.lookup uuid (active_connections s) = None -> s' = s).
Proof.
  intro Hnd. simpl. repeat split.
  - now apply DictFacts.lookup_pop_same.
  - intros k Hk. now apply DictFacts.lookup_pop_other.
  - now apply DictFacts.pop_NoDup.
  - intro H. apply DictFacts.lookup_none_keys in H.
    rewrite (DictFacts.pop_absent _ _ H). unfold with_connections.
    now destruct s.
Qed.

Lemma disconnect_removes_only_the_key_witness :
  let s := Server [("a", 1); ("b", 2)] [] [] [] 0 in
  let s' := snd (ConnectionManager.disconnect "a" s) in
  Dict.lookup "a" (active_connections s') = None /\
  (forall k, k <> "a" ->
     Dict.lookup k (active_connections s') = Dict.lookup k (active_connections s)) /\
  NoDup (get_clients s') /\
  (Dict.lookup "a" (active_connections s) = None -> s' = s).
Proof.
  intro s. apply (disconnect_removes_only_the_key "a" s).
  simpl. repeat constructor; simpl; intuition discriminate.
Defined.

(** A targeted send to a registered key never raises and
    [POST /command/{key}] answers ["sent"] either way: on a live channel one
    frame goes out and the registry is untouched; on a channel whose send
    raises, nothing goes out and the key is dropped. *)
Theorem send_command_registered (wires : WebSocket -> option exn)
    (uuid : string) (body : pyval) (s : server) (ws : WebSocket) :
  Dict.lookup uuid (active_connections s) = Some ws ->
  send_command wires uuid body s =
  (Ok (PDict [("status", PStr "sent"); ("uuid", PStr uuid)]),
   match wires ws with
   | None => emit (Frame ws body) s
   | Some _ => with_connections (Dict.pop uuid (active_connections s)) s
   end).
Proof.
  intro H.
  unfold send_command, bindM, ConnectionManager.send_command, try_except,
         send_json, ConnectionManager.disconnect, ret.
  rewrite H. now destruct (wires ws).
Qed.

Lemma send_command_registered_witness :
  send_command (fun _ => Some (RuntimeError "closed")) "a" (PStr "go")
               (Server [("a", 1); ("b", 2)] [] [] [] 0) =
  (Ok (PDict [("status", PStr "sent"); ("uuid", PStr "a")]),
   Server [("b", 2)] [] [] [] 0).
Proof.
  apply (send_command_registered (fun _ => Some (RuntimeError "closed")) "a"
           (PStr "go") (Server [("a", 1); ("b", 2)] [] [] [] 0) 1).
  reflexivity.
Defined.

(** ** Broadcast with any number of dead channels *)

Section Broadcast.

Variable wires : WebSocket -> option exn.
Variable command : pyval.

Local Abbreviation live :=
  (fun kv : string * WebSocket =>
     match wires (snd kv) with None => true | Some _ => false end).

Local Abbreviation sweep :=
  (fun (reg : dict WebSocket) (kv : string * WebSocket) =>
     if live kv then reg else Dict.pop (fst kv) reg).

(** The loop over a snapshot, whatever the registry is meanwhile: each
    entry of the snapshot is sent to or popped. *)
Lemma broadcast_items_sweep (items : list (string * WebSocket)) :
  forall s,
    ConnectionManager.broadcast_items wires command items s =
    (Ok tt,
     Server (fold_left sweep items (active_connections s)) (deviceids s)
            (wire s ++ map (fun kv => Frame (snd kv) command) (filter live items))%list
            (hub_deletions s) (entropy s)).
Proof.
  induction items as [| [k ws] items IH]; intro s.
  - simpl. unfold ret. rewrite app_nil_r. now destruct s.
  - cbn [ConnectionManager.broadcast_items]. unfold bindM, try_except, send_json.
    destruct (wires ws) as [e |] eqn:E; simpl; rewrite IH; simpl; rewrite E.
    + reflexivity.
    + simpl. now rewrite <- app_assoc.
Qed.

Lemma keys_filter_incl (p : string * WebSocket -> bool) (k : string)
    (d : dict WebSocket) :
  In k (Dict.keys (filter p d)) -> In k (Dict.keys d).
Proof.
  unfold Dict.keys. rewrite !in_map_iff. intros (kv & E & H).
  apply filter_In in H. exists kv. tauto.
Qed.

Lemma sweep_snapshot (items : list (string * WebSocket)) :
  forall pre,
    NoDup (Dict.keys (pre ++ items)%list) ->
    fold_left sweep items (filter live pre ++ items)%list =
    filter live (pre ++ items)%list.
Proof.
  induction items as [| [k ws] items IH]; intros pre Hnd.
  - simpl. now rewrite !app_nil_r.
  - assert (Hnd' : NoDup (Dict.keys ((pre ++ [(k, ws)]) ++ items)%list))
      by now rewrite <- app_assoc.
    specialize (IH _ Hnd').
    rewrite <- app_assoc in IH. simpl in IH.
    rewrite <- IH. cbn [fold_left]. f_equal.
    rewrite filter_app. cbn [filter snd fst].
    destruct (wires ws) as [e |].
    + rewrite app_nil_r. apply DictFacts.pop_split.
      intro Hin. apply keys_filter_incl in Hin.
      unfold Dict.keys in Hnd. rewrite map_app in Hnd. simpl in Hnd.
      apply NoDup_remove_2 in Hnd. apply Hnd, in_or_app. now left.
    + now rewrite <- app_assoc.
Qed.

(** A broadcast never raises.  Afterwards the registry holds exactly the
    entries whose channel took the message, in their order, and one frame
    went out on each of them; every entry whose send raised is gone. *)
Theorem broadcast_drops_dead_channels (s : server) :
  NoDup (get_clients s) ->
  ConnectionManager.broadcast wires command s =
  (Ok tt,
   Server (filter live (active_connections s)) (deviceids s)
          (wire s ++ map (fun kv => Frame (snd kv) command)
                         (filter live (active_connections s)))%list
          (hub_deletions s) (entropy s)).
Proof.
  intro Hnd. unfold ConnectionManager.broadcast.
  rewrite broadcast_items_sweep. do 2 f_equal.
  apply (sweep_snapshot (active_connections s) []). exact Hnd.
Qed.

End Broadcast.

Lemma broadcast_drops_dead_channels_witness :
  ConnectionManager.broadcast
    (fun ws => if Nat.eqb ws 2 then None else Some (RuntimeError "closed"))
    (PStr "ping") (Server [("a", 1); ("b", 2); ("c", 3)] [] [] [] 0) =
  (Ok tt, Server [("b", 2)] [] [Frame 2 (PStr "ping")] [] 0).
Proof.
  apply (broadcast_drops_dead_channels
           (fun ws => if Nat.eqb ws 2 then None else Some (RuntimeError "closed"))
           (PStr "ping") (Server [("a", 1); ("b", 2); ("c", 3)] [] [] [] 0)).
  simpl. repeat constructor; simpl; intuition discriminate.
Defined.

(** ** The bearer token of a websocket handshake *)

Lemma lower_ascii_space (c : ascii) :
  Ascii.eqb (lower_ascii c) " " = Ascii.eqb c " ".
Proof.
  destruct c as [[|] [|] [|] [|] [|] [|] [|] [|]]; vm_compute; reflexivity.
Qed.

Lemma has_char_lower_space (s : string) :
  has_char " " (lower s) = has_char " " s.
Proof.
  induction s as [| c s IH]; simpl; [reflexivity |].
  now rewrite lower_ascii_space, IH.
Qed.

Lemma lower_append (a b : string) : lower (a ++ b) = lower a ++ lower b.
Proof. induction a as [| c a IH]; simpl; [reflexivity | now rewrite IH]. Qed.

Lemma split1_append (sep : ascii) (a b : string) :
  has_char sep a = false ->
  split1 sep (a ++ String sep b) = [a; b].
Proof.
  induction a as [| c a IH]; simpl; intro H.
  - now rewrite Ascii.eqb_refl.
  - apply orb_false_elim in H. destruct H as [Hc Ha].
    rewrite Hc, (IH Ha). reflexivity.
Qed.

Lemma prefix_append (a b : string) : String.prefix a (a ++ b) = true.
Proof.
  induction a as [| c a IH]; simpl.
  - now destruct b.
  - destruct (ascii_dec c c); [exact IH | contradiction].
Qed.

(** The token of a header [<scheme> <token>] whose scheme is [bearer] in
    any letter case. *)
Lemma presented_token_bearer (scheme tok : string) (q : option string) :
  lower scheme = "bearer" ->
  presented_token (Handshake (Some (scheme ++ " " ++ tok)) q) = Ok (Some tok).
Proof.
  intro Hs. unfold presented_token. cbn [authorization query_token].
  assert (Hne : (scheme ++ " " ++ tok =? EmptyString) = false).
  { destruct scheme; [discriminate | reflexivity]. }
  rewrite Hne. cbn [negb andb].
  rewrite lower_append, Hs.
  change ("bearer" ++ lower (" " ++ tok)) with ("bearer " ++ lower tok).
  rewrite prefix_append.
  assert (Hsp : has_char " " scheme = false)
    by now rewrite <- has_char_lower_space, Hs.
  change (scheme ++ " " ++ tok) with (scheme ++ String " " tok).
  now rewrite (split1_append " " scheme tok Hsp).
Qed.

(** With a token configured, a handshake that carries a [Bearer] header
    (scheme in any letter case) is served exactly when the header's token
    is the configured one; a query parameter does not count then, right or
    wrong.  A refused handshake is closed with 1008 and never registered. *)
Theorem websocket_bearer_header (secret scheme tok : string)
    (q cs key : option string) (random_token : nat -> string)
    (clock : nat -> MessageEnvelope.clock) (ws : WebSocket) (uuid : string)
    (script : list turn) (s : server) :
  secret <> EmptyString ->
  lower scheme = "bearer" ->
  websocket_endpoint (Environ (Some secret) cs key) random_token clock
    (Handshake (Some (scheme ++ " " ++ tok)) q) ws uuid script s =
  if tok =? secret
  then session_loop (Environ (Some secret) cs key) random_token clock ws uuid
         script (snd (ConnectionManager.connect uuid ws s))
  else (Rejected, emit (Closed ws 1008) s).
Proof.
  intros Hsec Hs. unfold websocket_endpoint. cbn [API_BEARER_TOKEN].
  apply String.eqb_neq in Hsec. rewrite Hsec.
  rewrite (presented_token_bearer scheme tok q Hs). reflexivity.
Qed.

Lemma websocket_bearer_header_witness :
  websocket_endpoint (Environ (Some "s3cret") None None) (fun _ => "r")
    (fun _ => MessageEnvelope.Clock "u" "t")
    (Handshake (Some ("BEARER" ++ " " ++ "wrong")) (Some "s3cret")) 7 "c1" []
    (Server [] [] [] [] 0) =
  (Rejected, Server [] [] [Closed 7 1008] [] 0).
Proof.
  apply (websocket_bearer_header "s3cret" "BEARER" "wrong" (Some "s3cret")
           None None (fun _ => "r") (fun _ => MessageEnvelope.Clock "u" "t")
           7 "c1" [] (Server [] [] [] [] 0)).
  - discriminate.
  - reflexivity.
Defined.

Lemma session_loop_not_rejected (env : environ) (random_token : nat -> string)
    (clock : nat -> MessageEnvelope.clock) (ws : WebSocket) (uuid : string)
    (script : list turn) :
  forall s, fst (session_loop env random_token clock ws uuid script s) <> Rejected.
Proof.
  induction script as [| t script IH]; intro s; simpl; [discriminate |].
  destruct (bindM _ _ s) as [[[] | []] s1]; simpl; try discriminate; apply IH.
Qed.

(** Whatever the handshake, a handler that refuses the connection has done
    one thing, a close with code 1008 on that socket: no accept, no
    registry entry, no change to the pool. *)
Theorem websocket_rejection_leaves_no_trace (env : environ)
    (random_token : nat -> string) (clock : nat -> MessageEnvelope.clock)
    (h : handshake) (ws : WebSocket) (uuid : string) (script : list turn)
    (s : server) :
  fst (websocket_endpoint env random_token clock h ws uuid script s) = Rejected ->
  snd (websocket_endpoint env random_token clock h ws uuid script s) =
    emit (Closed ws 1008) s.
Proof.
  unfold websocket_endpoint.
  destruct (API_BEARER_TOKEN env) as [secret |];
    [destruct (secret =? EmptyString) |];
    try (intro H; now apply session_loop_not_rejected in H).
  destruct (presented_token h) as [token | e]; [| discriminate].
  destruct (option_string_eqb token (Some secret)); [| reflexivity].
  intro H. now apply session_loop_not_rejected in H.
Qed.

Lemma websocket_rejection_leaves_no_trace_witness :
  snd (websocket_endpoint (Environ (Some "s3cret") None None) (fun _ => "r")
         (fun _ => MessageEnvelope.Clock "u" "t") (Handshake None (Some "guess"))
         7 "c1" [] (Server [("c0", 1)] [Row "simdevice0001" PNone] [] [] 0)) =
  Server [("c0", 1)] [Row "simdevice0001" PNone] [Closed 7 1008] [] 0.
Proof.
  apply (websocket_rejection_leaves_no_trace (Environ (Some "s3cret") None None)
           (fun _ => "r") (fun _ => MessageEnvelope.Clock "u" "t")
           (Handshake None (Some "guess")) 7 "c1" []
           (Server [("c0", 1)] [Row "simdevice0001" PNone] [] [] 0)).
  reflexivity.
Defined.

(** ** The receive loop, message by message *)

Section Messages.

Variable env : environ.
Variable random_token : nat -> string.
Variable clock : nat -> MessageEnvelope.clock.

Lemma type_is_lookup (name ty : string) (data : dict pyval) :
  Dict.lookup "type" data = Some (PStr ty) ->
  type_is name data = (ty =? name).
Proof.
  intro H. unfold type_is, Dict.contains, get_none, Dict.get. now rewrite H.
Qed.

(** A request with a string id, on a pool with a free key and a channel
    that works: the lowest free key is bound to the id, one frame goes out,
    a [response] whose correlation id is the request's id and whose payload
    carries the key, its connection string and the three tuning values, and
    the handler goes on listening. *)
Theorem request_is_answered (ws : WebSocket) (data : dict pyval)
    (tok k cs : string) (s : server) :
  Dict.lookup "type" data = Some (PStr "request") ->
  Dict.lookup "id" data = Some (PStr tok) ->
  tok <> EmptyString ->
  select_first_unassigned (deviceids s) = Some k ->
  generate_iothub_connection_string env k = Ok cs ->
  exists frame s',
    on_message env random_token clock ws (Turn (Ok (PDict data)) no_faults None)
               (PDict data) s = (Ok Fallthrough, s') /\
    wire s' = (wire s ++ [Frame ws (PDict frame)])%list /\
    deviceids s' = update_device_uuid (PStr tok) k (deviceids s) /\
    active_connections s' = active_connections s /\
    Dict.lookup "type" frame = Some (PStr "response") /\
    Dict.lookup "correlationId" frame = Some (PStr tok) /\
    Dict.lookup "action" frame = Some (PStr "device.config.update") /\
    Dict.lookup "status" frame = Some (PStr "success") /\
    Dict.lookup "payload" frame =
      Some (PDict [("device_id", PStr k);
                   ("IOTHUB_DEVICE_CONNECTION_STRING", PStr cs);
                   ("initialRetryTimeout", PInt 30);
                   ("maxRetry", PInt 10);
                   ("messageIntervalSeconds", PInt 5)]).
Proof.
  intros Hty Hid Htok Hsel Hcs.
  assert (Htruthy : truthy (PStr tok) = true) by now apply truthy_PStr.
  unfold on_message.
  rewrite (type_is_lookup "request" "request" data Hty),
          (type_is_lookup "report" "request" data Hty).
  cbn [String.eqb Ascii.eqb Bool.eqb].
  unfold bindM at 1, on_request, claim, Dict.get. rewrite Hid.
  cbn [storage channel]. rewrite assign_device_id_no_faults, Hsel.
  unfold bindM, generate_uuid, lift, new_envelope, send_envelope, send_json, ret.
  rewrite Hcs. cbn -[MessageEnvelope.to_dict].
  unfold MessageEnvelope.to_dict. cbn. unfold py_or at 2. rewrite Htruthy.
  do 2 eexists. repeat split.
Qed.

(** A report over a channel that works is acknowledged by one frame, a
    [response] with status [received] and an empty payload whose
    correlation id is the report's id; the pool is not read or written. *)
Theorem report_is_acknowledged (ws : WebSocket) (data : dict pyval)
    (tok : string) (f : faults) (s : server) :
  Dict.lookup "type" data = Some (PStr "report") ->
  Dict.lookup "id" data = Some (PStr tok) ->
  tok <> EmptyString ->
  exists frame s',
    on_message env random_token clock ws (Turn (Ok (PDict data)) f None)
               (PDict data) s = (Ok Fallthrough, s') /\
    wire s' = (wire s ++ [Frame ws (PDict frame)])%list /\
    deviceids s' = deviceids s /\
    active_connections s' = active_connections s /\
    Dict.lookup "type" frame = Some (PStr "response") /\
    Dict.lookup "correlationId" frame = Some (PStr tok) /\
    Dict.lookup "action" frame = Some (PStr "none") /\
    Dict.lookup "status" frame = Some (PStr "received") /\
    Dict.lookup "payload" frame = Some (PDict []).
Proof.
  intros Hty Hid Htok.
  assert (Htruthy : truthy (PStr tok) = true) by now apply truthy_PStr.
  unfold on_message.
  rewrite (type_is_lookup "request" "report" data Hty),
          (type_is_lookup "report" "report" data Hty).
  cbn [String.eqb Ascii.eqb Bool.eqb].
  unfold bindM at 1, ret, on_report, Dict.get. rewrite Hid.
  unfold bindM, generate_uuid, new_envelope, send_envelope, send_json, ret.
  cbn -[MessageEnvelope.to_dict].
  unfold MessageEnvelope.to_dict. cbn. unfold py_or at 2. rewrite Htruthy.
  do 2 eexists. repeat split.
Qed.

(** A message whose type is neither [request] nor [report], or that has
    no type, is passed over: a script of such messages sends nothing,
    changes nothing and leaves the handler listening. *)
Theorem other_messages_are_ignored (ws : WebSocket) (uuid : string)
    (script : list turn) (s : server) :
  (forall t, In t script ->
     exists data, incoming t = Ok (PDict data) /\
                  type_is "request" data = false /\
                  type_is "report" data = false) ->
  session_loop env random_token clock ws uuid script s = (Listening, s).
Proof.
  induction script as [| t script IH]; intro H; [reflexivity |].
  destruct (H t (or_introl eq_refl)) as (data & Hin & Hq & Hp).
  cbn [session_loop]. unfold bindM at 1, lift. rewrite Hin.
  unfold on_message. rewrite Hq, Hp. unfold bindM, ret.
  apply IH. intros t' Ht'. apply H. now right.
Qed.


End Messages.

Lemma request_is_answered_witness :
  let env0 := Environ None (Some "HostName=hub.example;SharedAccessKeyName=x")
                      (Some "k3y") in
  exists frame s',
    on_message env0 (fun _ => "r1") (fun _ => MessageEnvelope.Clock "u" "t") 7
      (Turn (Ok (PDict [("type", PStr "request"); ("id", PStr "tok1")]))
            no_faults None)
      (PDict [("type", PStr "request"); ("id", PStr "tok1")])
      (Server [] [Row "simdevice0001" PNone] [] [] 0) = (Ok Fallthrough, s') /\
    wire s' = [Frame 7 (PDict frame)] /\
    deviceids s' = [Row "simdevice0001" (PStr "tok1")] /\
    active_connections s' = [] /\
    Dict.lookup "type" frame = Some (PStr "response") /\
    Dict.lookup "correlationId" frame = Some (PStr "tok1") /\
    Dict.lookup "action" frame = Some (PStr "device.config.update") /\
    Dict.lookup "status" frame = Some (PStr "success") /\
    Dict.lookup "payload" frame =
      Some (PDict [("device_id", PStr "simdevice0001");
                   ("IOTHUB_DEVICE_CONNECTION_STRING",
                    PStr "HostName=hub.example;DeviceId=simdevice0001;SharedAccessKey=k3y");
                   ("initialRetryTimeout", PInt 30);
                   ("maxRetry", PInt 10);
                   ("messageIntervalSeconds", PInt 5)]).
Proof.
  intro env0.
  apply (request_is_answered env0 (fun _ => "r1")
           (fun _ => MessageEnvelope.Clock "u" "t") 7
           [("type", PStr "request"); ("id", PStr "tok1")] "tok1"
           "simdevice0001"
           "HostName=hub.example;DeviceId=simdevice0001;SharedAccessKey=k3y"
           (Server [] [Row "simdevice0001" PNone] [] [] 0));
    try reflexivity.
  discriminate.
Defined.

Lemma report_is_acknowledged_witness :
  exists frame s',
    on_message (Environ None None None) (fun _ => "r1")
      (fun _ => MessageEnvelope.Clock "u" "t") 7
      (Turn (Ok (PDict [("type", PStr "report"); ("id", PStr "m1")]))
            no_faults None)
      (PDict [("type", PStr "report"); ("id", PStr "m1")])
      (Server [] [] [] [] 0) = (Ok Fallthrough, s') /\
    wire s' = [Frame 7 (PDict frame)] /\
    deviceids s' = [] /\
    active_connections s' = [] /\
    Dict.lookup "type" frame = Some (PStr "response") /\
    Dict.lookup "correlationId" frame = Some (PStr "m1") /\
    Dict.lookup "action" frame = Some (PStr "none") /\
    Dict.lookup "status" frame = Some (PStr "received") /\
    Dict.lookup "payload" frame = Some (PDict []).
Proof.
  apply (report_is_acknowledged (Environ None None None) (fun _ => "r1")
           (fun _ => MessageEnvelope.Clock "u" "t") 7
           [("type", PStr "report"); ("id", PStr "m1")] "m1" no_faults
           (Server [] [] [] [] 0)); try reflexivity.
  discriminate.
Defined.

Lemma other_messages_are_ignored_witness :
  session_loop (Environ None None None) (fun _ => "r1")
    (fun _ => MessageEnvelope.Clock "u" "t") 7 "c1"
    [Turn (Ok (PDict [("type", PStr "heartbeat")])) no_faults None;
     Turn (Ok (PDict [("id", PStr "m2")])) no_faults None]
    (Server [("c1", 7)] [] [] [] 0) =
  (Listening, Server [("c1", 7)] [] [] [] 0).
Proof.
  apply (other_messages_are_ignored (Environ None None None) (fun _ => "r1")
           (fun _ => MessageEnvelope.Clock "u" "t") 7 "c1").
  intros t [<- | [<- | []]]; eexists; repeat split.
Defined.

(** ** [BearerAuthMiddleware.dispatch] *)

Lemma has_char_prefix (c : ascii) (p s : string) :
  has_char c p = true -> String.prefix p s = true -> has_char c s = true.
Proof.
  revert s. induction p as [| a p IH]; simpl; intros s Hc Hp; [discriminate |].
  destruct s as [| b s]; simpl in Hp; [discriminate |].
  destruct (ascii_dec a b) as [<- | ]; [| discriminate]. simpl.
  destruct (Ascii.eqb a c); [reflexivity |]. simpl in *. now apply IH.
Qed.

Lemma split1_two (sep : ascii) (s : string) :
  has_char sep s = true -> exists x y, split1 sep s = [x; y].
Proof.
  induction s as [| c s IH]; simpl; [discriminate |].
  destruct (Ascii.eqb c sep); simpl; [eauto |].
  intro H. destruct (IH H) as (x & y & ->). eauto.
Qed.

(** The header test guards the split: a header that passes it has a second
    field. *)
Lemma bearer_header_has_token (a : string) :
  String.prefix "bearer " (lower a) = true ->
  exists tok, index (split1 " " a) 1 = Ok tok.
Proof.
  intro H.
  assert (Hc : has_char " " a = true).
  { rewrite <- has_char_lower_space.
    now apply (has_char_prefix " " "bearer " (lower a)). }
  destruct (split1_two " " a Hc) as (x & y & ->). now exists y.
Qed.

(** [dispatch] never raises.  It lets every request through when no token
    is configured and every request for an exempt path; what it refuses,
    it refuses with 401 or 403. *)
Theorem dispatch_outcomes (token : option string)
    (exempt_paths : option (list string)) (path : string)
    (auth : option string) :
  exists r,
    dispatch token exempt_paths path auth = Ok r /\
    (token = None \/ In path (exempt_paths_or_default exempt_paths) -> r = None) /\
    (forall resp, r = Some resp -> status resp = 401%Z \/ status resp = 403%Z).
Proof.
  unfold dispatch. destruct token as [secret |].
  2:{ exists None. split; [reflexivity |]. split; [reflexivity | discriminate]. }
  destruct (secret =? EmptyString).
  { exists None. split; [reflexivity |]. split; [reflexivity | discriminate]. }
  destruct (existsb (String.eqb path) (exempt_paths_or_default exempt_paths))
    eqn:Ex.
  { exists None. split; [reflexivity |]. split; [reflexivity | discriminate]. }
  assert (Himp : forall r : option response,
             Some secret = None \/
             In path (exempt_paths_or_default exempt_paths) -> r = None).
  { intros r [H | H]; [discriminate |]. exfalso.
    assert (E : existsb (String.eqb path)
                        (exempt_paths_or_default exempt_paths) = true).
    { apply existsb_exists. exists path. split; [exact H |].
      apply String.eqb_refl. }
    congruence. }
  destruct auth as [a |].
  2:{ eexists. split; [reflexivity |]. split; [apply Himp |].
      intros resp [= <-]. now left. }
  destruct (negb (a =? EmptyString) && String.prefix "bearer " (lower a)) eqn:Hg.
  2:{ eexists. split; [reflexivity |]. split; [apply Himp |].
      intros resp [= <-]. now left. }
  apply andb_prop in Hg. destruct Hg as [_ Hp].
  destruct (bearer_header_has_token a Hp) as [tok ->]. cbn [bind].
  destruct (negb (tok =? secret)).
  - eexists. split; [reflexivity |]. split; [apply Himp |].
    intros resp [= <-]. now right.
  - exists None. split; [reflexivity |]. split; [reflexivity | discriminate].
Qed.

(** On a protected path, a [Bearer] header (scheme in any letter case) is
    let through exactly when its token is the configured one, and is
    answered 403 otherwise. *)
Theorem dispatch_bearer_header (secret scheme tok path : string)
    (exempt_paths : option (list string)) :
  secret <> EmptyString ->
  ~ In path (exempt_paths_or_default exempt_paths) ->
  lower scheme = "bearer" ->
  dispatch (Some secret) exempt_paths path (Some (scheme ++ " " ++ tok)) =
  Ok (if tok =? secret then None
      else Some (Response 403 (PDict [("detail", PStr "Invalid token")]))).
Proof.
  intros Hsec Hpath Hs. unfold dispatch.
  apply String.eqb_neq in Hsec. rewrite Hsec.
  destruct (existsb (String.eqb path) (exempt_paths_or_default exempt_paths))
    eqn:Ex.
  { apply existsb_exists in Ex. destruct Ex as (x & Hx & E).
    apply String.eqb_eq in E. subst x. contradiction. }
  pose proof (presented_token_bearer scheme tok None Hs) as Hp.
  unfold presented_token in Hp. cbn [authorization query_token] in Hp.
  destruct (negb (scheme ++ " " ++ tok =? EmptyString) &&
            String.prefix "bearer " (lower (scheme ++ " " ++ tok)));
    [| discriminate].
  destruct (index (split1 " " (scheme ++ " " ++ tok)) 1) as [t | e];
    [| discriminate].
  cbn [bind] in *. injection Hp as ->. now destruct (tok =? secret).
Qed.

Lemma dispatch_bearer_header_witness :
  dispatch (Some "s3cret") None "/clients" (Some ("bearer" ++ " " ++ "s3cret")) =
  Ok None.
Proof.
  apply (dispatch_bearer_header "s3cret" "bearer" "s3cret" "/clients" None).
  - discriminate.
  - simpl. intuition discriminate.
  - reflexivity.
Defined.

(** The middleware and the websocket handler read the header alike: a
    header that the middleware lets through on a protected path presents
    the configured token to the websocket handler. *)
Theorem middleware_header_opens_websocket (secret path a : string)
    (exempt_paths : option (list string)) (q : option string) :
  secret <> EmptyString ->
  ~ In path (exempt_paths_or_default exempt_paths) ->
  dispatch (Some secret) exempt_paths path (Some a) = Ok None ->
  presented_token (Handshake (Some a) q) = Ok (Some secret).
Proof.
  intros Hsec Hpath. unfold dispatch, presented_token.
  cbn [authorization query_token].
  apply String.eqb_neq in Hsec. rewrite Hsec.
  destruct (existsb (String.eqb path) (exempt_paths_or_default exempt_paths))
    eqn:Ex.
  { apply existsb_exists in Ex. destruct Ex as (x & Hx & E).
    apply String.eqb_eq in E. subst x. contradiction. }
  destruct (negb (a =? EmptyString) && String.prefix "bearer " (lower a));
    [| discriminate].
  destruct (index (split1 " " a) 1) as [t | e]; cbn [bind]; [| discriminate].
  destruct (t =? secret) eqn:E; cbn [negb]; [| discriminate].
  apply String.eqb_eq in E. now subst t.
Qed.

Lemma middleware_header_opens_websocket_witness :
  presented_token (Handshake (Some "Bearer s3cret") None) = Ok (Some "s3cret").
Proof.
  apply (middleware_header_opens_websocket "s3cret" "/clients" "Bearer s3cret"
           None None).
  - discriminate.
  - simpl. intuition discriminate.
  - reflexivity.
Defined.

(** ** [generate_iothub_connection_string] *)

Lemma split_no_sep (sep : ascii) (a : string) :
  has_char sep a = false -> split sep a = [a].
Proof.
  induction a as [| c a IH]; simpl; intro H; [reflexivity |].
  apply orb_false_elim in H. destruct H as [Hc Ha].
  now rewrite Hc, (IH Ha).
Qed.

Lemma split_append (sep : ascii) (a b : string) :
  has_char sep a = false ->
  split sep (a ++ String sep b) = a :: split sep b.
Proof.
  induction a as [| c a IH]; simpl; intro H.
  - now rewrite Ascii.eqb_refl.
  - apply orb_false_elim in H. destruct H as [Hc Ha].
    now rewrite Hc, (IH Ha).
Qed.

Lemma split_head (sep : ascii) (s : string) :
  exists w ws, split sep s = w :: ws.
Proof.
  destruct s as [| c s]; simpl; [eauto |].
  destruct (Ascii.eqb c sep); [eauto |]. destruct (split sep s); eauto.
Qed.

Lemma split_second (sep : ascii) (s : string) :
  (exists x, index (split sep s) 1 = Ok x) <-> has_char sep s = true.
Proof.
  induction s as [| c s IH]; simpl.
  - split; [intros [x H]; discriminate | discriminate].
  - destruct (Ascii.eqb c sep); simpl.
    + split; [intros _; reflexivity | intros _].
      destruct (split_head sep s) as (w & ws & ->). now exists w.
    + rewrite <- IH. destruct (split sep s) as [| w [| w' ws]]; simpl;
        split; intros [x H]; try discriminate; eauto.
Qed.

(** The connection string handed to a device takes its host from the
    server's own connection string, read between the first [=] and the
    first [;], and its key from [IOT_PRIMARY_KEY_DEVICE]. *)
Theorem connection_string_of_host (h rest device_id0 : string)
    (token key : option string) :
  has_char ";" h = false ->
  has_char "=" h = false ->
  generate_iothub_connection_string
    (Environ token (Some ("HostName=" ++ h ++ ";" ++ rest)) key) device_id0 =
  Ok ("HostName=" ++ h ++ ";DeviceId=" ++ device_id0 ++ ";SharedAccessKey="
        ++ str_of_getenv key).
Proof.
  intros Hsemi Heq. unfold generate_iothub_connection_string.
  cbn [IOT_CONNECTION_STRING IOT_PRIMARY_KEY_DEVICE].
  change ("HostName=" ++ h ++ ";" ++ rest)
    with (("HostName=" ++ h) ++ String ";" rest).
  rewrite split_append by (simpl; exact Hsemi).
  cbn [index nth_error bind].
  change ("HostName=" ++ h) with ("HostName" ++ String "=" h).
  rewrite split_append by reflexivity.
  rewrite (split_no_sep "=" h Heq). reflexivity.
Qed.

Lemma connection_string_of_host_witness :
  generate_iothub_connection_string
    (Environ None (Some ("HostName=" ++ "hub.example" ++ ";" ++ "SharedAccessKeyName=x"))
             None) "simdevice0001" =
  Ok "HostName=hub.example;DeviceId=simdevice0001;SharedAccessKey=None".
Proof.
  apply (connection_string_of_host "hub.example" "SharedAccessKeyName=x"
           "simdevice0001" None None); reflexivity.
Defined.

(** The function answers exactly when [IOT_CONNECTION_STRING] is set and
    has a [=] before its first [;]; otherwise it raises. *)
Theorem connection_string_defined_iff (env : environ) (device_id0 : string) :
  (exists cs, generate_iothub_connection_string env device_id0 = Ok cs) <->
  exists v, IOT_CONNECTION_STRING env = Some v /\
            has_char "=" (hd EmptyString (split ";" v)) = true.
Proof.
  unfold generate_iothub_connection_string.
  destruct (IOT_CONNECTION_STRING env) as [v |].
  - destruct (split_head ";" v) as (w & ws & E). rewrite E.
    cbn [index nth_error bind hd].
    pose proof (split_second "=" w) as Hw.
    destruct (index (split "=" w) 1) as [x | e]; cbn [bind].
    + split; [intros _ | eauto].
      exists v. split; [reflexivity |]. rewrite E. cbn [hd]. apply Hw. eauto.
    + split.
      * intros [cs H]. discriminate.
      * intros (v' & [= <-] & H). rewrite E in H. cbn [hd] in H.
        apply Hw in H. destruct H as [x H]. discriminate.
  - split; [intros [cs H]; discriminate | intros (v & H & _); discriminate].
Qed.

(** ** [report_status] *)

(** [POST /report/{device_id}] adds at most one row at the end of
    [telemetries] and never a row that depends on the id in the URL: the
    row takes its device from the body.  The answer echoes the URL id; when
    the storage layer fails the table is unchanged and the error is 500. *)
Theorem report_status_stores_the_body (f : faults) (device_id0 : string)
    (body : dict pyval) (telemetries : list telemetry) :
  (forall other,
     snd (report_status f other body telemetries) =
     snd (report_status f device_id0 body telemetries)) /\
  (forall c, fst (report_status f device_id0 body telemetries) = Ok c ->
     c = PDict [("status", PStr "saved"); ("device_id", PStr device_id0)] /\
     exists row,
       snd (report_status f device_id0 body telemetries) =
         (telemetries ++ [row])%list /\
       t_deviceid row = Dict.get "deviceId" (PStr EmptyString) body /\
       t_temp row = Dict.get "temp" (PInt 20) body /\
       t_humidity row = Dict.get "Humidity" (PInt 50) body) /\
  (forall e, fst (report_status f device_id0 body telemetries) = Raise e ->
     e = HTTPException 500 "Database error" /\
     snd (report_status f device_id0 body telemetries) = telemetries).
Proof.
  unfold report_status.
  destruct (execute_fault f 0) as [e0 |];
    [| destruct (commit_fault f) as [e1 |]]; simpl.
  - split; [reflexivity |]. split; [discriminate |]. now intros e [= <-].
  - split; [reflexivity |]. split; [discriminate |]. now intros e [= <-].
  - split; [reflexivity |]. split; [| discriminate].
    intros c [= <-]. split; [reflexivity |]. eexists. repeat split.
Qed.
